(** * AI Observability Platform: ingestion endpoint and storage schema

    A shallow embedding of [api/main.py] (the FastAPI ingestion service) and
    [database/models.py] (the SQLAlchemy schema), followed by the properties
    of the telemetry write path that the specification states.

    Layout:
    - [Py]        values that cross the wire or sit in a dict: JSON, datetimes,
                  the zero padded number formats behind [isoformat] and [str(UUID)];
    - [Uuid]      [uuid.uuid4()] and [str] of a UUID;
    - [Runtime]   the state the handler threads (entropy, clock, console, tables)
                  and a small state monad;
    - [Models]    [database/models.py]: columns, indexes, [LLMRequest.to_dict];
    - [Api]       [api/main.py]: [TelemetryEvent] validation and [log_telemetry];
    - [Server]    requests handled one after another, and interleaved;
    - [Storage]   the storage contract of the specification (no code yet);
    - [Wire]      the words the properties are stated in;
    - [Samples]   concrete submissions, an entropy source and a clock. *)

From Stdlib Require Import ZArith QArith List String Ascii Lia Bool Sorted Permutation.
From Stdlib Require Import DecimalString.
From stdpp Require Import gmap strings list.

Set Warnings "-register-all".
Local Open Scope string_scope.
Local Open Scope Z_scope.

(* ===================================================================== *)
(** ** Python values *)
(* ===================================================================== *)

Module Py.

(** What [json.loads] produces: an integer literal becomes an [int], a literal
    with a fraction or an exponent a [float] (kept as an exact rational: only
    whether it is a whole number matters below), and on a repeated key of an
    object the last binding wins. *)
Inductive json : Type :=
| JNull
| JBool (b : bool)
| JInt (z : Z)
| JFloat (q : Q)
| JStr (s : string)
| JArr (l : list json)
| JObj (l : list (string * json)).

(** [d.get(k)] on the dict made from an object literal. *)
Fixpoint dict_get (k : string) (l : list (string * json)) : option json :=
  match l with
  | [] => None
  | (k', v) :: l' =>
      match dict_get k l' with
      | Some w => Some w
      | None => if String.eqb k k' then Some v else None
      end
  end.

(** [datetime.datetime]: the calendar fields and, for an aware value, the
    offset from UTC in seconds. *)
Record datetime : Type := mkDatetime {
  year : Z; month : Z; day : Z;
  hour : Z; minute : Z; second : Z; microsecond : Z;
  utcoffset : option Z
}.

(** The values held by the dicts of the program. *)
Inductive pyval : Type :=
| PyNone
| PyInt (z : Z)
| PyFloat (q : Q)
| PyStr (s : string)
| PyDatetime (d : datetime)
| PyJson (j : json).

(** *** ['%0wd'] and ['%0wx'] *)

Definition digit_char (d : Z) : ascii :=
  if d <? 10 then ascii_of_N (Z.to_N (48 + d)) else ascii_of_N (Z.to_N (87 + d)).

(** The [w] low digits of [n] in base [base], most significant first. This is
    ['%0wd' % n] (base 10) and ['%0wx' % n] (base 16) for [0 <= n < base^w],
    the only range the [datetime] and [UUID] constructors let through. *)
Fixpoint digits (base : Z) (w : nat) (n : Z) : list ascii :=
  match w with
  | O => []
  | S w' => digits base w' (n / base) ++ [digit_char (n mod base)]
  end.

Definition zpad_dec (w : nat) (n : Z) : string := string_of_list_ascii (digits 10 w n).

(** *** [datetime.isoformat()] *)

Definition format_offset (off : Z) : string :=
  let sign := if off <? 0 then "-" else "+" in
  let a := Z.abs off in
  let hh := a / 3600 in
  let mm := (a mod 3600) / 60 in
  let ss := a mod 60 in
  sign ++ zpad_dec 2 hh ++ ":" ++ zpad_dec 2 mm
       ++ (if ss =? 0 then "" else ":" ++ zpad_dec 2 ss).

Definition isoformat (d : datetime) : string :=
  zpad_dec 4 (year d) ++ "-" ++ zpad_dec 2 (month d) ++ "-" ++ zpad_dec 2 (day d)
  ++ "T" ++ zpad_dec 2 (hour d) ++ ":" ++ zpad_dec 2 (minute d) ++ ":" ++ zpad_dec 2 (second d)
  ++ (if microsecond d =? 0 then "" else "." ++ zpad_dec 6 (microsecond d))
  ++ match utcoffset d with
     | None => ""
     | Some off => format_offset off
     end.

(** *** Ordering of naive datetimes: field by field, as Python compares them *)

Definition dt_key (d : datetime) : list Z :=
  [year d; month d; day d; hour d; minute d; second d; microsecond d].

Fixpoint lex_leb (a b : list Z) : bool :=
  match a, b with
  | [], _ => true
  | _ :: _, [] => false
  | x :: a', y :: b' => (x <? y) || ((x =? y) && lex_leb a' b')
  end.

Definition dt_leb (a b : datetime) : bool := lex_leb (dt_key a) (dt_key b).
Definition dt_le (a b : datetime) : Prop := dt_leb a b = true.

End Py.

(* ===================================================================== *)
(** ** [uuid.uuid4()] *)
(* ===================================================================== *)

Module Uuid.
Import Py.

(** [UUID(bytes=os.urandom(16), version=4)]: the 128 bit integer of the bytes
    with the variant and version fields overwritten.
<<
    int &= ~(0xc000 << 48);  int |= 0x8000 << 48
    int &= ~(0xf000 << 64);  int |= version << 76
>> *)
Definition variant_field : Z := Z.shiftl 0xc000 48.
Definition variant_rfc4122 : Z := Z.shiftl 0x8000 48.
Definition version_field : Z := Z.shiftl 0xf000 64.
Definition version_4 : Z := Z.shiftl 4 76.

Definition uuid4_int (r : Z) : Z :=
  Z.lor (Z.land (Z.lor (Z.land r (Z.lnot variant_field)) variant_rfc4122)
                (Z.lnot version_field))
        version_4.


(** [str(u)]: ['%032x' % int] cut 8-4-4-4-12. *)
Definition hex32 (n : Z) : list ascii := digits 16 32 n.

Definition dash : ascii := "-"%char.

Definition uuid_str (n : Z) : string :=
  let h := hex32 n in
  string_of_list_ascii
    (take 8 h ++ dash :: take 4 (drop 8 h) ++ dash :: take 4 (drop 12 h)
       ++ dash :: take 4 (drop 16 h) ++ dash :: drop 20 h).

End Uuid.

(* ===================================================================== *)
(** ** [database/models.py] *)
(* ===================================================================== *)

Module Models.
Import Py.

Inductive sqltype : Type :=
| Integer | String_ (n : Z) | Text | Float | DateTime | JSON.

(** [Column(type, primary_key=, autoincrement=, nullable=, index=, default=)];
    a keyword that is not given has SQLAlchemy's default ([nullable] is false
    on a primary key and true elsewhere). *)
Record Column : Type := mkColumn {
  col_name : string;
  col_type : sqltype;
  primary_key : bool;
  autoincrement : bool;
  nullable : bool;
  index : bool;
  default_utcnow : bool
}.

(** [Index(name, col, ...)] *)
Record Index : Type := mkIndex {
  idx_name : string;
  idx_columns : list string
}.

Record Table : Type := mkTable {
  tablename : string;
  columns : list Column;
  table_args : list Index
}.

Definition LLMRequest_table : Table :=
  {| tablename := "llm_requests";
     columns :=
       [ mkColumn "id"         Integer       true  true  false false false;
         mkColumn "app_id"     (String_ 255) false false false true  false;
         mkColumn "model_name" (String_ 255) false false false true  false;
         mkColumn "prompt"     Text          false false false false false;
         mkColumn "response"   Text          false false false false false;
         mkColumn "latency_ms" Float         false false false false false;
         mkColumn "created_at" DateTime      false false false true  true;
         mkColumn "metadata"   JSON          false false true  false false ];
     table_args :=
       [ mkIndex "idx_app_created"   ["app_id"; "created_at"];
         mkIndex "idx_model_created" ["model_name"; "created_at"] ] |}.

(** The models declared on [Base]: the tables of [Base.metadata]. *)
Definition Base_tables : list Table := [LLMRequest_table].

(** [Table.indexes]: the [Index] objects of [__table_args__] and one single
    column index, named [ix_<table>_<column>], per column with [index=True]. *)
Definition column_index (t : Table) (c : Column) : Index :=
  {| idx_name := "ix_" ++ tablename t ++ "_" ++ col_name c;
     idx_columns := [col_name c] |}.

Definition table_indexes (t : Table) : list Index :=
  table_args t ++ List.map (column_index t) (List.filter index (columns t)).

Definition column_names (t : Table) : list string := List.map col_name (columns t).

(** An index is composite when it is keyed on more than one column. *)
Definition composite (i : Index) : bool := (1 <? length (idx_columns i))%nat.

Definition opt_pyval {A} (f : A -> pyval) (o : option A) : pyval :=
  match o with
  | Some a => f a
  | None => PyNone
  end.

(** A row of the [llm_requests] table. [Float] is kept as an exact rational. *)
Record LLMRequest : Type := mkLLMRequest {
  id : Z;
  app_id : string;
  model_name : string;
  prompt : string;
  response : string;
  latency_ms : Q;
  created_at : option datetime;
  metadata : option json
}.

(** [LLMRequest.to_dict] *)
Definition to_dict (self : LLMRequest) : gmap string pyval :=
  <[ "id" := PyInt (id self) ]>
  (<[ "app_id" := PyStr (app_id self) ]>
  (<[ "model_name" := PyStr (model_name self) ]>
  (<[ "prompt" := PyStr (prompt self) ]>
  (<[ "response" := PyStr (response self) ]>
  (<[ "latency_ms" := PyFloat (latency_ms self) ]>
  (<[ "created_at" := match created_at self with
                      | Some d => PyStr (isoformat d)
                      | None => PyNone
                      end ]>
  (<[ "metadata" := opt_pyval PyJson (metadata self) ]> ∅))))))).

End Models.

(* ===================================================================== *)
(** ** What the handler runs on *)
(* ===================================================================== *)

Module Runtime.
Import Py Models.

(** The two sources the program reads and cannot control: the k-th call of
    [os.urandom(16)] (as the big endian integer of the bytes) and the k-th
    reading of [datetime.utcnow()]. *)
Record Env : Type := mkEnv {
  os_urandom : nat -> Z;
  utcnow : nat -> datetime
}.

(** A line written by [print]: a string, or a dict (shown by its value). *)
Inductive printed : Type :=
| PrintStr (s : string)
| PrintDict (d : gmap string pyval).

(** Everything a request can change: how much of the two sources has been
    consumed, the console, and the storage layer (the rows of the table). *)
Record State : Type := mkState {
  draws : nat;
  clock_reads : nat;
  stdout : list printed;
  llm_requests : list LLMRequest
}.

Definition M (A : Type) : Type := State -> A * State.

Definition ret {A} (a : A) : M A := fun s => (a, s).
Definition bind {A B} (m : M A) (k : A -> M B) : M B :=
  fun s => let (a, s') := m s in k a s'.

Definition urandom16 (env : Env) : M Z :=
  fun s => (os_urandom env (draws s),
            {| draws := S (draws s); clock_reads := clock_reads s;
               stdout := stdout s; llm_requests := llm_requests s |}).

Definition datetime_utcnow (env : Env) : M datetime :=
  fun s => (utcnow env (clock_reads s),
            {| draws := draws s; clock_reads := S (clock_reads s);
               stdout := stdout s; llm_requests := llm_requests s |}).

Definition print (p : printed) : M unit :=
  fun s => (tt,
            {| draws := draws s; clock_reads := clock_reads s;
               stdout := stdout s ++ [p]; llm_requests := llm_requests s |}).

End Runtime.

Declare Scope py_scope.
Notation "x <- m ;; k" := (Runtime.bind m (fun x => k))
  (at level 100, m at next level, right associativity) : py_scope.
Notation "m ;;; k" := (Runtime.bind m (fun _ => k))
  (at level 100, right associativity) : py_scope.
Local Open Scope py_scope.

Import Py Uuid Models Runtime.

(* ===================================================================== *)
(** ** [api/main.py] *)
(* ===================================================================== *)

Module Api.

(** [class TelemetryEvent(BaseModel)], after validation. *)
Record TelemetryEvent : Type := mkTelemetryEvent {
  app_id : string;
  model_name : string;
  prompt : string;
  response : string;
  latency_ms : Z;
  token_count : option Z;
  timestamp : option datetime
}.

(** [class TelemetryResponse(BaseModel)] *)
Record TelemetryResponse : Type := mkTelemetryResponse {
  request_id : string;
  status : string
}.

(** *** Validation of the request body against [TelemetryEvent]

    The field declarations of the class are the program; how pydantic (v2, in
    its default lax mode) checks one value against [str], [int] and
    [datetime] is the library's. Its two parsers of text are left open: every
    result below holds whatever they accept. *)
Record Lax : Type := mkLax {
  str_as_int : string -> option Z;
  parse_datetime : json -> option datetime
}.

Inductive error_type : Type :=
| missing | string_type | int_type | int_from_float | int_parsing
| greater_than_equal | datetime_invalid | model_attributes_type.

(** One entry of the [detail] list of a 422 response. *)
Record ErrorDetails : Type := mkError {
  loc : string;
  type : error_type
}.

Definition validate_str (v : json) : error_type + string :=
  match v with
  | JStr s => inr s
  | _ => inl string_type
  end.

Definition validate_int (lax : Lax) (v : json) : error_type + Z :=
  match v with
  | JInt z => inr z
  | JBool b => inr (if b then 1 else 0)
  | JFloat q =>
      let r := Qred q in
      if (Zpos (Qden r) =? 1) then inr (Qnum r) else inl int_from_float
  | JStr s =>
      match str_as_int lax s with
      | Some z => inr z
      | None => inl int_parsing
      end
  | _ => inl int_type
  end.

(** [Field(..., ge=0)] *)
Definition ge (bound : Z) (r : error_type + Z) : error_type + Z :=
  match r with
  | inr z => if bound <=? z then inr z else inl greater_than_equal
  | inl e => inl e
  end.

Definition validate_datetime (lax : Lax) (v : json) : error_type + datetime :=
  match parse_datetime lax v with
  | Some d => inr d
  | None => inl datetime_invalid
  end.

(** A field declared without a default, or with [Field(...)]. *)
Definition required {A} (name : string) (val : json -> error_type + A)
    (body : list (string * json)) : list ErrorDetails + A :=
  match dict_get name body with
  | None => inl [mkError name missing]
  | Some v =>
      match val v with
      | inr a => inr a
      | inl e => inl [mkError name e]
      end
  end.

(** A field declared [Optional[T] = None]. *)
Definition optional {A} (name : string) (val : json -> error_type + A)
    (body : list (string * json)) : list ErrorDetails + option A :=
  match dict_get name body with
  | None => inr None
  | Some JNull => inr None
  | Some v =>
      match val v with
      | inr a => inr (Some a)
      | inl e => inl [mkError name e]
      end
  end.

Definition errors {A} (r : list ErrorDetails + A) : list ErrorDetails :=
  match r with
  | inl e => e
  | inr _ => []
  end.

(** Every field is checked and the errors of all of them are reported. *)
Definition model_validate (lax : Lax) (body : json) : list ErrorDetails + TelemetryEvent :=
  match body with
  | JObj d =>
      let a := required "app_id" validate_str d in
      let m := required "model_name" validate_str d in
      let p := required "prompt" validate_str d in
      let r := required "response" validate_str d in
      let l := required "latency_ms" (fun v => ge 0 (validate_int lax v)) d in
      let c := optional "token_count" (validate_int lax) d in
      let t := optional "timestamp" (validate_datetime lax) d in
      match a, m, p, r, l, c, t with
      | inr a', inr m', inr p', inr r', inr l', inr c', inr t' =>
          inr (mkTelemetryEvent a' m' p' r' l' c' t')
      | _, _, _, _, _, _, _ =>
          inl (errors a ++ errors m ++ errors p ++ errors r
                 ++ errors l ++ errors c ++ errors t)%list
      end
  | _ => inl [mkError "body" model_attributes_type]
  end.

(** *** The handler *)

Section Handler.
Context (env : Env).

(** [str(uuid.uuid4())] *)
Definition new_request_id : M string :=
  r <- urandom16 env ;; ret (uuid_str (uuid4_int r)).

(** [event.timestamp or datetime.utcnow()]: a datetime is always truthy, so
    the clock is read exactly when the field is [None]. *)
Definition timestamp_or_now (event : TelemetryEvent) : M datetime :=
  match timestamp event with
  | Some t => ret t
  | None => datetime_utcnow env
  end.

(** The dict literal [telemetry_record]. *)
Definition telemetry_record (request_id : string) (event : TelemetryEvent)
    (event_timestamp : datetime) : gmap string pyval :=
  <[ "id" := PyStr request_id ]>
  (<[ "app_id" := PyStr (app_id event) ]>
  (<[ "model_name" := PyStr (model_name event) ]>
  (<[ "prompt" := PyStr (prompt event) ]>
  (<[ "response" := PyStr (response event) ]>
  (<[ "latency_ms" := PyInt (latency_ms event) ]>
  (<[ "token_count" := opt_pyval PyInt (token_count event) ]>
  (<[ "timestamp" := PyDatetime event_timestamp ]> ∅))))))).

(** [log_telemetry]. The write to the database is a comment in the source
    ("Later: with get_session() ..."): no statement touches the storage. *)
Definition log_telemetry (event : TelemetryEvent) : M TelemetryResponse :=
  request_id <- new_request_id ;;
  event_timestamp <- timestamp_or_now event ;;
  print (PrintStr "Received telemetry:") ;;;
  print (PrintDict (telemetry_record request_id event event_timestamp)) ;;;
  ret {| request_id := request_id; status := "logged" |}.

(** [health_check] *)
Definition health_check : M (gmap string pyval) :=
  ret (<[ "status" := PyStr "ok" ]> ∅).

(** *** [POST /log] as FastAPI serves it: 422 with the error list when the
    body does not validate (the handler is not entered), else 200 with the
    handler's response. *)
Inductive HttpResponse : Type :=
| Http200 (r : TelemetryResponse)
| Http422 (detail : list ErrorDetails).

Definition post_log (lax : Lax) (body : json) : M HttpResponse :=
  match model_validate lax body with
  | inl detail => ret (Http422 detail)
  | inr event => r <- log_telemetry event ;; ret (Http200 r)
  end.

End Handler.

End Api.

Import Api.

(* ===================================================================== *)
(** ** The service over time *)
(* ===================================================================== *)

Module Server.

(** Requests handled one after another, each to completion. *)
Fixpoint serve (env : Env) (lax : Lax) (bodies : list json) : M (list HttpResponse) :=
  match bodies with
  | [] => ret []
  | b :: bs =>
      r <- post_log env lax b ;;
      rs <- serve env lax bs ;;
      ret (r :: rs)
  end.

(** The state once the first [n] requests have been answered. *)
Definition state_after (env : Env) (lax : Lax) (bodies : list json) (s : State) (n : nat) : State :=
  snd (serve env lax (take n bodies) s).

(** The dict most recently written to the console. *)
Definition last_record (s : State) : option (gmap string pyval) :=
  match last (stdout s) with
  | Some (PrintDict d) => Some d
  | _ => None
  end.

Definition accepted (lax : Lax) (body : json) : bool :=
  match model_validate lax body with
  | inr _ => true
  | inl _ => false
  end.

(** *** Requests in flight together

    FastAPI runs a [def] handler on a worker thread, so two invocations of
    [log_telemetry] can interleave between statements. A thread is the
    handler stopped before one of its statements, with the locals it has. *)
Inductive thread : Type :=
| AtUuid (event : TelemetryEvent)
| AtTimestamp (request_id : string) (event : TelemetryEvent)
| AtPrint (request_id : string) (event : TelemetryEvent) (event_timestamp : datetime)
| Returned (r : TelemetryResponse) (record : gmap string pyval).

(** One statement of [log_telemetry] (the two [print]s and the [return]
    count as one). *)
Definition step (env : Env) (t : thread) : M thread :=
  match t with
  | AtUuid event =>
      request_id <- new_request_id env ;; ret (AtTimestamp request_id event)
  | AtTimestamp request_id event =>
      event_timestamp <- timestamp_or_now env event ;;
      ret (AtPrint request_id event event_timestamp)
  | AtPrint request_id event event_timestamp =>
      let record := telemetry_record request_id event event_timestamp in
      print (PrintStr "Received telemetry:") ;;;
      print (PrintDict record) ;;;
      ret (Returned {| request_id := request_id; status := "logged" |} record)
  | Returned r record => ret (Returned r record)
  end.

(** A schedule names, step by step, the thread that runs next. *)
Fixpoint run (env : Env) (schedule : list nat) (pool : list thread) : M (list thread) :=
  match schedule with
  | [] => ret pool
  | i :: rest =>
      match pool !! i with
      | Some t => t' <- step env t ;; run env rest (<[ i := t' ]> pool)
      | None => run env rest pool
      end
  end.

End Server.

(* ===================================================================== *)
(** ** The storage layer of the specification *)
(* ===================================================================== *)

Module Storage.

(** Modelled from the spec: the persisted entity of section 3. No code of the
    repository stores or queries records ([database/db.py] is announced, not
    written), so the record and the three operations below follow the words
    of sections 3, 4.2 and 9. *)
Record TelemetryRecord : Type := mkRecord {
  id : string;
  app_id : string;
  model_name : string;
  prompt : string;
  response : string;
  latency_ms : Q;
  token_count : option Z;
  created_at : datetime;
  metadata : option json
}.

(** Modelled from the spec: "an in-memory structure (a mapping from key to
    ordered list)": the fact table in append order and the two indexes,
    keyed on [(app_id, created_at)] and on [(model_name, created_at)]. *)
Record Store : Type := mkStore {
  table : list TelemetryRecord;
  idx_app_created : gmap string (list TelemetryRecord);
  idx_model_created : gmap string (list TelemetryRecord)
}.

(** Modelled from the spec: the store before any record is appended. *)
Definition empty : Store := mkStore [] ∅ ∅.

(** Modelled from the spec: "ordered by [created_at] ascending". Insertion
    into such a list, after the records of the same instant. *)
Fixpoint insert_by_created (r : TelemetryRecord) (l : list TelemetryRecord) : list TelemetryRecord :=
  match l with
  | [] => [r]
  | x :: l' =>
      if dt_leb (created_at x) (created_at r)
      then x :: insert_by_created r l'
      else r :: x :: l'
  end.

(** Modelled from the spec: the index entry of a key gains the record. *)
Definition index_add (key : string) (r : TelemetryRecord)
    (idx : gmap string (list TelemetryRecord)) : gmap string (list TelemetryRecord) :=
  <[ key := insert_by_created r (default [] (idx !! key)) ]> idx.

(** Modelled from the spec: [append(record) -> identifier] stores one record
    and returns its identifier. *)
Definition append (r : TelemetryRecord) (st : Store) : string * Store :=
  (id r,
   {| table := table st ++ [r];
      idx_app_created := index_add (app_id r) r (idx_app_created st);
      idx_model_created := index_add (model_name r) r (idx_model_created st) |}).

(** Modelled from the spec: the optional [time_range] of a query. *)
Definition in_range (time_range : option (datetime * datetime)) (r : TelemetryRecord) : bool :=
  match time_range with
  | None => true
  | Some (lo, hi) => dt_leb lo (created_at r) && dt_leb (created_at r) hi
  end.

(** Modelled from the spec: [queryByApp(app_id, time_range?)] and
    [queryByModel(model_name, time_range?)], answered from the index. *)
Definition queryByApp (st : Store) (a : string) (time_range : option (datetime * datetime))
    : list TelemetryRecord :=
  List.filter (in_range time_range) (default [] (idx_app_created st !! a)).

(** Modelled from the spec: [queryByModel], the same on the second index. *)
Definition queryByModel (st : Store) (m : string) (time_range : option (datetime * datetime))
    : list TelemetryRecord :=
  List.filter (in_range time_range) (default [] (idx_model_created st !! m)).

(** Modelled from the spec: the store after appending the records of a list
    in order ("append-only fact store"). *)
Definition append_all (rs : list TelemetryRecord) (st : Store) : Store :=
  fold_left (fun st r => snd (append r st)) rs st.

(** Modelled from the spec: "non-decreasing [created_at] order", each record
    is not later than the next one. *)
Definition created_le (x y : TelemetryRecord) : Prop :=
  dt_le (created_at x) (created_at y).

(** Modelled from the spec: a sequence in that order. *)
Definition ascending (l : list TelemetryRecord) : Prop := Sorted created_le l.

(** Modelled from the spec: "matches exactly", equality of strings. *)
Definition app_is (a : string) (r : TelemetryRecord) : bool := String.eqb (app_id r) a.

(** Modelled from the spec: the same for [model_name]. *)
Definition model_is (m : string) (r : TelemetryRecord) : bool := String.eqb (model_name r) m.

(** Modelled from the spec: an index agrees with the table when it holds,
    under each key, the records of the table with that key in ascending order. *)
Definition index_ok (key : TelemetryRecord -> string)
    (idx : gmap string (list TelemetryRecord)) (tbl : list TelemetryRecord) : Prop :=
  forall k : string,
    ascending (default [] (idx !! k))
    /\ Permutation (default [] (idx !! k))
                   (List.filter (fun r => String.eqb (key r) k) tbl).

(** Modelled from the spec: both indexes agree with the table. *)
Definition store_ok (st : Store) : Prop :=
  index_ok app_id (idx_app_created st) (table st)
  /\ index_ok model_name (idx_model_created st) (table st).

End Storage.

(* ===================================================================== *)
(** ** Vocabulary of the properties *)
(* ===================================================================== *)

Module Wire.





(** The identifier and the time the next invocation of [log_telemetry] uses. *)
Definition issued_id (env : Env) (s : State) : string :=
  uuid_str (uuid4_int (os_urandom env (draws s))).

Definition event_time (env : Env) (event : TelemetryEvent) (s : State) : datetime :=
  match timestamp event with
  | Some t => t
  | None => utcnow env (clock_reads s)
  end.

(** The system clock never goes back. *)
Definition monotone_clock (env : Env) : Prop :=
  forall i j : nat, (i <= j)%nat -> dt_le (utcnow env i) (utcnow env j).

End Wire.

(* ===================================================================== *)
(** ** Sample inputs *)
(* ===================================================================== *)

Module Samples.

(** No text is read as a number or a date. *)
Definition lax0 : Lax := mkLax (fun _ => None) (fun _ => None).

(** Draws 0, 1, 2, ... and a clock that ticks one microsecond per reading
    until the end of its second. *)
Definition env0 : Env :=
  mkEnv (fun k => Z.of_nat k mod 2 ^ 128)
        (fun k => mkDatetime 2024 1 1 0 0 0 (Z.min (Z.of_nat k) 999999) None).


Definition s0 : State := mkState 0 0 [] [].

(** The scenario of section 8. *)
Definition body0 : json :=
  JObj [("app_id", JStr "chatbot-v1"); ("model_name", JStr "gpt-4o-mini");
        ("prompt", JStr "hi"); ("response", JStr "hello"); ("latency_ms", JInt 120)].

Definition body_fractional : json :=
  JObj [("app_id", JStr "chatbot-v1"); ("model_name", JStr "gpt-4o-mini");
        ("prompt", JStr "hi"); ("response", JStr "hello");
        ("latency_ms", JFloat (1205 # 10))].

Definition body_negative : json :=
  JObj [("app_id", JStr "chatbot-v1"); ("model_name", JStr "gpt-4o-mini");
        ("prompt", JStr "hi"); ("response", JStr "hello"); ("latency_ms", JInt (-5))].

Definition body_tokens : json :=
  JObj [("app_id", JStr "chatbot-v1"); ("model_name", JStr "gpt-4o-mini");
        ("prompt", JStr "hi"); ("response", JStr "hello"); ("latency_ms", JInt 120);
        ("token_count", JInt 42)].

Definition event0 : TelemetryEvent :=
  mkTelemetryEvent "chatbot-v1" "gpt-4o-mini" "hi" "hello" 120 None None.

End Samples.

Import Wire Server Samples.

(* ===================================================================== *)
(** ** [config/settings.py] *)
(* ===================================================================== *)

Module Settings.

(** [s.replace(old, new)] for a non-empty [old]: the occurrences of [old] are
    found from the left and do not overlap. [skip] counts the characters of
    the occurrence just replaced that are still to be passed over. *)
Fixpoint replace_from (skip : nat) (old new s : string) : string :=
  match s with
  | EmptyString => EmptyString
  | String c s' =>
      match skip with
      | S k => replace_from k old new s'
      | O =>
          if String.prefix old s
          then new ++ replace_from (String.length old - 1) old new s'
          else String c (replace_from 0 old new s')
      end
  end.

Definition replace (old new s : string) : string := replace_from 0 old new s.

(** [DATABASE_URL]: the variable of the environment when it is set, else the
    f-string on [PROJECT_ROOT]. *)
Definition DATABASE_URL (getenv : option string) (PROJECT_ROOT : string) : string :=
  match getenv with
  | Some v => v
  | None => "sqlite:///" ++ PROJECT_ROOT ++ "/data/observability.db"
  end.

(** [get_database_path]: the argument handed to [Path], or the message of
    the [ValueError]. *)
Definition get_database_path (DATABASE_URL : string) : string + string :=
  if String.prefix "sqlite:///" DATABASE_URL
  then inr (replace "sqlite:///" "" DATABASE_URL)
  else inl ("Unsupported database URL: " ++ DATABASE_URL).

(** [c not in s] *)
Fixpoint lacks (c : ascii) (s : string) : bool :=
  match s with
  | EmptyString => true
  | String c' s' => negb (Ascii.eqb c' c) && lacks c s'
  end.

End Settings.

(* ===================================================================== *)
(** ** [validate_schema] and [get_model_info] *)
(* ===================================================================== *)

Module SchemaReport.

Definition nl : string := String (ascii_of_nat 10) EmptyString.

(** [str(n)] for a length. *)
Definition str_nat (n : nat) : string := NilEmpty.string_of_uint (Nat.to_uint n).

(** ["=" * n] *)
Fixpoint rule (n : nat) : string :=
  match n with
  | O => EmptyString
  | S n' => String "="%char (rule n')
  end.

(** [f"{s:ws}"]: [s] followed by blanks up to the width [w]. *)
Fixpoint blanks (n : nat) : string :=
  match n with
  | O => EmptyString
  | S n' => String " "%char (blanks n')
  end.

Definition ljust (w : nat) (s : string) : string := s ++ blanks (w - String.length s).

(** [str(column.type)] *)
Definition str_type (t : sqltype) : string :=
  match t with
  | Integer => "INTEGER"
  | String_ n => "VARCHAR(" ++ NilZero.string_of_int (Z.to_int n) ++ ")"
  | Text => "TEXT"
  | Float => "FLOAT"
  | DateTime => "DATETIME"
  | JSON => "JSON"
  end.

Definition column_line (c : Column) : string :=
  "     - " ++ ljust 15 (col_name c) ++ " " ++ ljust 20 (str_type (col_type c)) ++ " "
  ++ ljust 10 (if nullable c then "NULL" else "NOT NULL") ++ " "
  ++ (if index c then "INDEXED" else "").

Fixpoint print_columns (cs : list Column) : M unit :=
  match cs with
  | [] => ret tt
  | c :: cs' => print (PrintStr (column_line c)) ;;; print_columns cs'
  end.

(** [validate_schema], with the class it reports on as arguments. *)
Definition validate_schema_of (name : string) (t : Table) : M unit :=
  print (PrintStr (rule 70)) ;;;
  print (PrintStr "DATABASE SCHEMA VALIDATION - Day 2") ;;;
  print (PrintStr (rule 70)) ;;;
  print (PrintStr ("✅ Model: " ++ name)) ;;;
  print (PrintStr ("   Table name: " ++ tablename t)) ;;;
  print (PrintStr ("   Total columns: " ++ str_nat (length (columns t)))) ;;;
  print (PrintStr "   Indexed columns: app_id, model_name, created_at") ;;;
  print (PrintStr ("   Composite indexes: " ++ str_nat (length (table_indexes t)))) ;;;
  print (PrintStr (nl ++ "   Columns:")) ;;;
  print_columns (columns t) ;;;
  print (PrintStr (nl ++ rule 70)) ;;;
  print (PrintStr "✅ Schema validation passed!") ;;;
  print (PrintStr (rule 70)).

Definition validate_schema : M unit := validate_schema_of "LLMRequest" LLMRequest_table.

(** One entry of the dict of [get_model_info]. *)
Record ModelInfo : Type := mkModelInfo {
  info_class : string;
  info_table : string;
  info_columns : nat;
  info_indexes : nat
}.

Definition get_model_info_of (name : string) (t : Table) : gmap string ModelInfo :=
  <[ "llm_requests" := mkModelInfo name (tablename t) (length (columns t))
                         (length (table_indexes t)) ]> ∅.

Definition get_model_info : gmap string ModelInfo :=
  get_model_info_of "LLMRequest" LLMRequest_table.

End SchemaReport.

(* ===================================================================== *)
(** ** More vocabulary *)
(* ===================================================================== *)

Module Shape.

(** The fields [TelemetryEvent] declares. *)
Definition field_names : list string :=
  ["app_id"; "model_name"; "prompt"; "response"; "latency_ms"; "token_count"; "timestamp"].



Definition is_200 (r : HttpResponse) : bool :=
  match r with
  | Http200 _ => true
  | Http422 _ => false
  end.

(** The keys of the dict literal in [log_telemetry]. *)
Definition record_keys : gset string :=
  {[ "id"; "app_id"; "model_name"; "prompt"; "response";
     "latency_ms"; "token_count"; "timestamp" ]}.

Definition with_token_count (ev : TelemetryEvent) (c : option Z) : TelemetryEvent :=
  mkTelemetryEvent (app_id ev) (model_name ev) (prompt ev) (response ev)
    (latency_ms ev) c (timestamp ev).

(** A naive [datetime] as the constructor admits it (days are not checked
    against the month). *)
Definition valid_naive (d : datetime) : Prop :=
  1 <= year d <= 9999 /\ 1 <= month d <= 12 /\ 1 <= day d <= 31
  /\ 0 <= hour d <= 23 /\ 0 <= minute d <= 59 /\ 0 <= second d <= 59
  /\ 0 <= microsecond d <= 999999 /\ utcoffset d = None.

Definition valid_created_at (r : LLMRequest) : Prop :=
  match created_at r with
  | Some d => valid_naive d
  | None => True
  end.


(** The requests of a list that are accepted without a timestamp. *)
Definition reads_clock (lax : Lax) (body : json) : bool :=
  match model_validate lax body with
  | inr ev => match timestamp ev with Some _ => false | None => true end
  | inl _ => false
  end.

End Shape.

Import Settings SchemaReport Shape.

(* ===================================================================== *)
(** ** Facts about the formats and about [uuid4] *)
(* ===================================================================== *)

Section FormatFacts.

Lemma digit_char_code (d : Z) :
  0 <= d < 16 ->
  N_of_ascii (digit_char d) = Z.to_N (if d <? 10 then 48 + d else 87 + d).
Proof.
  intros Hd. unfold digit_char.
  destruct (d <? 10) eqn:E; apply N_ascii_embedding; lia.
Qed.

Lemma digit_char_inj (a b : Z) :
  0 <= a < 16 -> 0 <= b < 16 -> digit_char a = digit_char b -> a = b.
Proof.
  intros Ha Hb E.
  apply (f_equal N_of_ascii) in E.
  rewrite !digit_char_code in E by assumption.
  destruct (a <? 10) eqn:Ea, (b <? 10) eqn:Eb; lia.
Qed.

Lemma digits_length (base : Z) (w : nat) (n : Z) : length (digits base w n) = w.
Proof.
  revert n. induction w as [|w IH]; intros n; simpl; [reflexivity|].
  rewrite length_app, IH. simpl. lia.
Qed.

Lemma digits_inj (base : Z) (w : nat) :
  1 < base <= 16 ->
  forall n m, 0 <= n < base ^ Z.of_nat w -> 0 <= m < base ^ Z.of_nat w ->
  digits base w n = digits base w m -> n = m.
Proof.
  intros Hb. induction w as [|w IH]; intros n m Hn Hm E.
  - simpl in Hn, Hm. lia.
  - simpl in E. apply app_inj_tail in E. destruct E as [E1 E2].
    rewrite Nat2Z.inj_succ, Z.pow_succ_r in Hn, Hm by lia.
    assert (Hq : n / base = m / base).
    { apply IH; [| |exact E1]; split;
        try (apply Z.div_pos; lia); apply Z.div_lt_upper_bound; lia. }
    assert (Hr : n mod base = m mod base).
    { apply digit_char_inj; [| |exact E2].
      - pose proof (Z.mod_pos_bound n base); lia.
      - pose proof (Z.mod_pos_bound m base); lia. }
    rewrite (Z.div_mod n base), (Z.div_mod m base) by lia. congruence.
Qed.

Lemma string_of_list_ascii_inj (l k : list ascii) :
  string_of_list_ascii l = string_of_list_ascii k -> l = k.
Proof.
  intros E. apply (f_equal list_ascii_of_string) in E.
  now rewrite !list_ascii_of_string_of_list_ascii in E.
Qed.






End FormatFacts.

(* ===================================================================== *)
(** ** Facts about validation and the handler *)
(* ===================================================================== *)

Section ApiFacts.
Context (env : Env) (lax : Lax).

Lemma log_telemetry_eq (event : TelemetryEvent) (s : State) :
  log_telemetry env event s =
  ({| request_id := issued_id env s; status := "logged" |},
   {| draws := S (draws s);
      clock_reads := match timestamp event with
                     | Some _ => clock_reads s
                     | None => S (clock_reads s)
                     end;
      stdout := stdout s ++
                [PrintStr "Received telemetry:";
                 PrintDict (telemetry_record (issued_id env s) event (event_time env event s))];
      llm_requests := llm_requests s |}).
Proof.
  unfold log_telemetry, new_request_id, timestamp_or_now, issued_id, event_time,
    bind, ret, urandom16, datetime_utcnow, print.
  destruct (timestamp event); cbn; rewrite <- app_assoc; reflexivity.
Qed.


Lemma post_log_accepted (body : json) (event : TelemetryEvent) (s : State) :
  model_validate lax body = inr event ->
  post_log env lax body s =
  (Http200 (fst (log_telemetry env event s)), snd (log_telemetry env event s)).
Proof.
  intros E. unfold post_log. rewrite E. unfold bind, ret.
  destruct (log_telemetry env event s). reflexivity.
Qed.

Lemma post_log_200_inv (body : json) (s s' : State) (resp : TelemetryResponse) :
  post_log env lax body s = (Http200 resp, s') ->
  exists event, model_validate lax body = inr event
                /\ log_telemetry env event s = (resp, s').
Proof.
  unfold post_log. destruct (model_validate lax body) as [detail|event] eqn:E.
  - discriminate.
  - unfold bind, ret. destruct (log_telemetry env event s) as [r s1] eqn:E2.
    intros H. injection H as -> ->. eauto.
Qed.

(** What a validated event says about the body it came from. *)
Lemma model_validate_inr_inv (body : json) (ev : TelemetryEvent) :
  model_validate lax body = inr ev ->
  exists d, body = JObj d
    /\ required "app_id" validate_str d = inr (app_id ev)
    /\ required "model_name" validate_str d = inr (model_name ev)
    /\ required "prompt" validate_str d = inr (prompt ev)
    /\ required "response" validate_str d = inr (response ev)
    /\ required "latency_ms" (fun v => ge 0 (validate_int lax v)) d = inr (latency_ms ev)
    /\ optional "token_count" (validate_int lax) d = inr (token_count ev)
    /\ optional "timestamp" (validate_datetime lax) d = inr (timestamp ev).
Proof.
  destruct body as [| | | | | |d]; try discriminate. cbn [model_validate].
  destruct (required "app_id" _ _) eqn:Ea; [discriminate|].
  destruct (required "model_name" _ _) eqn:Em; [destruct (required "prompt" _ _),
    (required "response" _ _), (required "latency_ms" _ _), (optional "token_count" _ _),
    (optional "timestamp" _ _); discriminate|].
  destruct (required "prompt" _ _) eqn:Ep; [destruct
    (required "response" _ _), (required "latency_ms" _ _), (optional "token_count" _ _),
    (optional "timestamp" _ _); discriminate|].
  destruct (required "response" _ _) eqn:Er; [destruct
    (required "latency_ms" _ _), (optional "token_count" _ _),
    (optional "timestamp" _ _); discriminate|].
  destruct (required "latency_ms" _ _) eqn:El; [destruct (optional "token_count" _ _),
    (optional "timestamp" _ _); discriminate|].
  destruct (optional "token_count" _ _) eqn:Ec; [destruct
    (optional "timestamp" _ _); discriminate|].
  destruct (optional "timestamp" _ _) eqn:Et; [discriminate|].
  intros H. injection H as <-. exists d.
  repeat split; first [exact Ea | exact Em | exact Ep | exact Er | exact El | exact Ec | exact Et].
Qed.

Lemma model_validate_inr_intro (d : list (string * json)) a m p r l c t :
  required "app_id" validate_str d = inr a ->
  required "model_name" validate_str d = inr m ->
  required "prompt" validate_str d = inr p ->
  required "response" validate_str d = inr r ->
  required "latency_ms" (fun v => ge 0 (validate_int lax v)) d = inr l ->
  optional "token_count" (validate_int lax) d = inr c ->
  optional "timestamp" (validate_datetime lax) d = inr t ->
  model_validate lax (JObj d) = inr (mkTelemetryEvent a m p r l c t).
Proof.
  intros Ha Hm Hp Hr Hl Hc Ht. cbn [model_validate].
  rewrite Ha, Hm, Hp, Hr, Hl, Hc, Ht. reflexivity.
Qed.

(** A body that does not validate is answered with the errors of every field. *)
Lemma model_validate_obj_cases (d : list (string * json)) :
  (exists ev, model_validate lax (JObj d) = inr ev)
  \/ model_validate lax (JObj d) =
     inl (errors (required "app_id" validate_str d)
          ++ errors (required "model_name" validate_str d)
          ++ errors (required "prompt" validate_str d)
          ++ errors (required "response" validate_str d)
          ++ errors (required "latency_ms" (fun v => ge 0 (validate_int lax v)) d)
          ++ errors (optional "token_count" (validate_int lax) d)
          ++ errors (optional "timestamp" (validate_datetime lax) d))%list.
Proof.
  cbn [model_validate].
  destruct (required "app_id" _ _), (required "model_name" _ _), (required "prompt" _ _),
    (required "response" _ _), (required "latency_ms" _ _), (optional "token_count" _ _),
    (optional "timestamp" _ _); eauto.
Qed.






End ApiFacts.

(* ===================================================================== *)
(** ** The record the handler builds *)
(* ===================================================================== *)

Section RecordFacts.
Context (request_id : string) (event : TelemetryEvent) (event_timestamp : datetime).

Lemma telemetry_record_id :
  telemetry_record request_id event event_timestamp !! "id" = Some (PyStr request_id).
Proof. reflexivity. Qed.


Lemma telemetry_record_token_count :
  telemetry_record request_id event event_timestamp !! "token_count"
  = Some (opt_pyval PyInt (token_count event)).
Proof. reflexivity. Qed.

Lemma telemetry_record_timestamp :
  telemetry_record request_id event event_timestamp !! "timestamp"
  = Some (PyDatetime event_timestamp).
Proof. reflexivity. Qed.

End RecordFacts.

Lemma last_record_log_telemetry (env : Env) (event : TelemetryEvent) (s : State) :
  last_record (snd (log_telemetry env event s))
  = Some (telemetry_record (issued_id env s) event (event_time env event s)).
Proof.
  rewrite log_telemetry_eq. unfold last_record. cbn [snd stdout].
  change [PrintStr "Received telemetry:";
          PrintDict (telemetry_record (issued_id env s) event (event_time env event s))]
    with ([PrintStr "Received telemetry:"]
          ++ [PrintDict (telemetry_record (issued_id env s) event (event_time env event s))])%list.
  rewrite app_assoc, last_snoc. reflexivity.
Qed.

(* ===================================================================== *)
(** ** The ingestion endpoint *)
(* ===================================================================== *)

(** C1, as stated, fails: the scenario submission of section 8 is answered
    with an identifier and the status ["logged"], and the storage layer holds
    no record before and none after. *)
Lemma success_without_persistence :
  exists resp s',
    post_log env0 lax0 body0 s0 = (Http200 resp, s')
    /\ status resp = "logged"
    /\ llm_requests s0 = []
    /\ llm_requests s' = []
    /\ length (llm_requests s') <> S (length (llm_requests s0)).
Proof.
  eexists _, _. split; [reflexivity|].
  cbn. repeat split; discriminate.
Qed.

(** C1, amended: a successful invocation returns the identifier it has just
    generated with the status ["logged"] after writing a header line and the
    record it built to the console; the storage layer is left as it was, and
    the only other changes are one draw of entropy and, when the submission
    has no timestamp, one reading of the clock. *)
Theorem success_effects (env : Env) (lax : Lax) (body : json) (s s' : State)
    (resp : TelemetryResponse) :
  post_log env lax body s = (Http200 resp, s') ->
  exists event,
    model_validate lax body = inr event
    /\ resp = {| request_id := issued_id env s; status := "logged" |}
    /\ stdout s' = (stdout s ++
         [PrintStr "Received telemetry:";
          PrintDict (telemetry_record (request_id resp) event (event_time env event s))])%list
    /\ llm_requests s' = llm_requests s
    /\ draws s' = S (draws s)
    /\ clock_reads s' = match timestamp event with
                        | Some _ => clock_reads s
                        | None => S (clock_reads s)
                        end.
Proof.
  intros H. apply post_log_200_inv in H. destruct H as (event & Hv & Hl).
  exists event. rewrite log_telemetry_eq in Hl. injection Hl as <- <-.
  cbn. repeat split; [exact Hv | reflexivity..].
Qed.

Lemma success_effects_witness :
  exists resp s',
    post_log env0 lax0 body0 s0 = (Http200 resp, s')
    /\ llm_requests s' = llm_requests s0
    /\ draws s' = S (draws s0).
Proof.
  eexists _, _. split; [reflexivity|].
  destruct (success_effects env0 lax0 body0 s0 _ _ eq_refl)
    as (event & _ & _ & _ & Hdb & Hdraws & _).
  split; [exact Hdb | exact Hdraws].
Defined.



(** The same for a body that leaves [prompt] out. *)
Example rejection_missing_prompt :
  post_log env0 lax0
    (JObj [("app_id", JStr "chatbot-v1"); ("model_name", JStr "gpt-4o-mini");
           ("response", JStr "hello"); ("latency_ms", JInt 120)]) s0
  = (Http422 [mkError "prompt" missing], s0).
Proof. reflexivity. Qed.

(** C4: the record built for an accepted submission carries, under
    ["timestamp"], the client's timestamp whenever one was supplied (any
    value, no bound is checked), and otherwise the reading of the system
    clock taken by this invocation, before the record is built. *)
Theorem timestamp_defaulting (env : Env) (event : TelemetryEvent) (s : State) :
  exists record,
    last_record (snd (log_telemetry env event s)) = Some record
    /\ record !! "timestamp" =
       Some (PyDatetime match timestamp event with
                        | Some t => t
                        | None => utcnow env (clock_reads s)
                        end).
Proof.
  eexists. split; [apply last_record_log_telemetry|].
  rewrite telemetry_record_timestamp. reflexivity.
Qed.

(** A timestamp far in the future is taken as it is, and the clock is not read. *)
Example future_timestamp_accepted :
  let t := mkDatetime 9999 12 31 23 59 59 0 None in
  let event := mkTelemetryEvent "a" "m" "p" "r" 1 None (Some t) in
  exists record,
    last_record (snd (log_telemetry env0 event s0)) = Some record
    /\ record !! "timestamp" = Some (PyDatetime t)
    /\ clock_reads (snd (log_telemetry env0 event s0)) = clock_reads s0.
Proof. eexists. repeat split; reflexivity. Qed.




(** A latency written [120.0] is accepted as the integer 120. *)
Example latency_120_0 :
  validate_int lax0 (JFloat (1200 # 10)) = inr 120.
Proof. reflexivity. Qed.

(* ===================================================================== *)
(** ** The storage schema *)
(* ===================================================================== *)

(** The table also carries the three single column indexes of [index=True]. *)
Lemma LLMRequest_table_indexes :
  List.map idx_columns (table_indexes LLMRequest_table)
  = [["app_id"; "created_at"]; ["model_name"; "created_at"];
     ["app_id"]; ["model_name"]; ["created_at"]].
Proof. reflexivity. Qed.

(** C6: the declared layout is one table, [llm_requests], and the indexes of
    that table keyed on more than one column are exactly two, on
    [(app_id, created_at)] and on [(model_name, created_at)]. *)
Theorem storage_layout :
  List.map tablename Base_tables = ["llm_requests"]
  /\ List.map (fun t => List.filter composite (table_indexes t)) Base_tables
     = [[ mkIndex "idx_app_created" ["app_id"; "created_at"];
          mkIndex "idx_model_created" ["model_name"; "created_at"] ]].
Proof. split; reflexivity. Qed.

(** C7 at a submission with [token_count = 42]: the handler puts 42 under
    ["token_count"] in the record it builds, and there it ends. Nothing is
    stored, the [llm_requests] table has no column of that name, and no row
    serialises one. *)
Theorem token_count_has_no_column :
  exists resp s' record,
    post_log env0 lax0 body_tokens s0 = (Http200 resp, s')
    /\ last_record s' = Some record
    /\ record !! "token_count" = Some (PyInt 42)
    /\ llm_requests s' = []
    /\ ~ In "token_count" (column_names LLMRequest_table)
    /\ forall row : LLMRequest, to_dict row !! "token_count" = None.
Proof.
  eexists _, _, _. split; [reflexivity|].
  split; [reflexivity|].
  split; [reflexivity|].
  split; [reflexivity|].
  split.
  - cbn. intuition discriminate.
  - intros row. reflexivity.
Qed.

(** C10: [to_dict] returns a dict with exactly the eight keys [id], [app_id],
    [model_name], [prompt], [response], [latency_ms], [created_at] and
    [metadata] (so none named [token_count]); [created_at] holds the
    [isoformat] string of the timestamp, or [None] when there is none, and
    every other key holds the attribute as it is. *)
Theorem to_dict_keys_and_values (self : LLMRequest) :
  dom (to_dict self)
    = ({[ "id"; "app_id"; "model_name"; "prompt"; "response";
          "latency_ms"; "created_at"; "metadata" ]} : gset string)
  /\ to_dict self !! "token_count" = None
  /\ to_dict self !! "id" = Some (PyInt (Models.id self))
  /\ to_dict self !! "app_id" = Some (PyStr (Models.app_id self))
  /\ to_dict self !! "model_name" = Some (PyStr (Models.model_name self))
  /\ to_dict self !! "prompt" = Some (PyStr (Models.prompt self))
  /\ to_dict self !! "response" = Some (PyStr (Models.response self))
  /\ to_dict self !! "latency_ms" = Some (PyFloat (Models.latency_ms self))
  /\ to_dict self !! "created_at"
     = Some match created_at self with
            | Some d => PyStr (isoformat d)
            | None => PyNone
            end
  /\ to_dict self !! "metadata"
     = Some match metadata self with
            | Some j => PyJson j
            | None => PyNone
            end.
Proof.
  split.
  - unfold to_dict. rewrite !dom_insert_L, dom_empty_L. set_solver.
  - repeat split; reflexivity.
Qed.

(** The sample instance at the end of [models.py]. *)
Example to_dict_sample :
  to_dict (mkLLMRequest 1 "demo_chatbot" "gpt-3.5-turbo" "What is the capital of France?"
             "Paris is the capital of France." (3425 # 10)
             (Some (mkDatetime 2024 5 17 9 30 7 4100 None)) None) !! "created_at"
  = Some (PyStr "2024-05-17T09:30:07.004100").
Proof. reflexivity. Qed.

(* ===================================================================== *)
(** ** Requests one after another *)
(* ===================================================================== *)

Section ServeFacts.
Context (env : Env) (lax : Lax).

Lemma state_after_0 (bodies : list json) (s : State) :
  state_after env lax bodies s 0 = s.
Proof. reflexivity. Qed.

Lemma state_after_cons (b : json) (bs : list json) (s : State) (n : nat) :
  state_after env lax (b :: bs) s (S n)
  = state_after env lax bs (snd (post_log env lax b s)) n.
Proof.
  unfold state_after. cbn [take serve]. unfold bind, ret.
  destruct (post_log env lax b s) as [r s1]. cbn [snd].
  destruct (serve env lax (take n bs) s1). reflexivity.
Qed.

Lemma state_after_step (bodies : list json) (s : State) (n : nat) (b : json) :
  bodies !! n = Some b ->
  state_after env lax bodies s (S n)
  = snd (post_log env lax b (state_after env lax bodies s n)).
Proof.
  revert s n. induction bodies as [|b0 bs IH]; intros s n Hb; [discriminate|].
  destruct n as [|n].
  - cbn in Hb. injection Hb as ->. rewrite state_after_cons, !state_after_0. reflexivity.
  - cbn in Hb. rewrite !state_after_cons. now apply IH.
Qed.


(** One request moves the two counters forward by at most one, draws a
    number exactly when it is accepted, and leaves the tables alone. *)
Lemma post_log_counters (b : json) (s : State) :
  let s' := snd (post_log env lax b s) in
  draws s' = (if accepted lax b then S (draws s) else draws s)
  /\ (clock_reads s <= clock_reads s')%nat
  /\ llm_requests s' = llm_requests s.
Proof.
  unfold post_log, accepted. destruct (model_validate lax b) as [detail|event].
  - cbn. auto.
  - unfold bind, ret. rewrite log_telemetry_eq. cbn.
    destruct (timestamp event); auto.
Qed.

Lemma state_after_mono (bodies : list json) (s : State) (i j : nat) :
  (i <= j)%nat -> (j <= length bodies)%nat ->
  (draws (state_after env lax bodies s i) <= draws (state_after env lax bodies s j))%nat
  /\ (clock_reads (state_after env lax bodies s i)
      <= clock_reads (state_after env lax bodies s j))%nat.
Proof.
  intros Hij. induction Hij as [|j Hij IH]; intros Hj; [lia|].
  destruct (lookup_lt_is_Some_2 bodies j) as [b Hb]; [lia|].
  rewrite (state_after_step bodies s j b Hb).
  destruct (post_log_counters b (state_after env lax bodies s j)) as (Hd & Hc & _).
  destruct IH as [IHd IHc]; [lia|].
  rewrite Hd. destruct (accepted lax b); lia.
Qed.






End ServeFacts.


(** Draws that differ only inside the version and variant fields collide too. *)
Example uuid4_overwrites_six_bits :
  uuid4_int 0 = uuid4_int (Z.shiftl 1 62)
  /\ uuid4_int 0 = uuid4_int (Z.shiftl 0xf 76).
Proof. split; reflexivity. Qed.




(** The sample clock never goes back. *)
Lemma env0_clock_monotone : monotone_clock env0.
Proof.
  intros i j Hij. unfold dt_le, dt_leb. cbn.
  destruct (Z.ltb_spec (Z.min (Z.of_nat i) 999999) (Z.min (Z.of_nat j) 999999));
    [reflexivity|].
  destruct (Z.eqb_spec (Z.min (Z.of_nat i) 999999) (Z.min (Z.of_nat j) 999999));
    [reflexivity | lia].
Defined.

(** C9, as stated, fails once two requests are in flight together. Thread 0
    is given its identifier first (draw 0), thread 1 second (draw 1); thread 1
    then reads the clock before thread 0 does. The clock never goes back, and
    yet the record with the earlier identifier has the later time. *)
Lemma interleaved_times_out_of_order :
  monotone_clock env0
  /\ exists ra rb da db s',
       run env0 [0; 1; 1; 0; 0; 1]%nat [AtUuid event0; AtUuid event0] s0
       = ([Returned ra da; Returned rb db], s')
       /\ request_id ra = uuid_str (uuid4_int (os_urandom env0 0))
       /\ request_id rb = uuid_str (uuid4_int (os_urandom env0 1))
       /\ da !! "timestamp" = Some (PyDatetime (utcnow env0 1))
       /\ db !! "timestamp" = Some (PyDatetime (utcnow env0 0))
       /\ ~ dt_le (utcnow env0 1) (utcnow env0 0).
Proof.
  split; [exact env0_clock_monotone|].
  eexists _, _, _, _, _. split; [reflexivity|].
  repeat split; try reflexivity. discriminate.
Qed.

(** A thread that runs alone is the handler. *)
Lemma run_alone (env : Env) (event : TelemetryEvent) (s : State) :
  run env [0; 0; 0]%nat [AtUuid event] s
  = ([Returned (fst (log_telemetry env event s))
        (telemetry_record (issued_id env s) event (event_time env event s))],
     snd (log_telemetry env event s)).
Proof.
  rewrite log_telemetry_eq.
  unfold run, step, new_request_id, timestamp_or_now, issued_id, event_time,
    bind, ret, urandom16, datetime_utcnow, print.
  cbn. destruct (timestamp event); cbn; rewrite <- app_assoc; reflexivity.
Qed.

(** C9, amended: when requests are handled one after another, of two accepted
    submissions without a timestamp the earlier one draws its identifier
    first and its record carries a time that is not later than the other's,
    provided the system clock never goes back. *)
Theorem created_at_monotone_sequential (env : Env) (lax : Lax) (bodies : list json)
    (s : State) (i j : nat) (bi bj : json) (ei ej : TelemetryEvent) :
  monotone_clock env ->
  (i <= j)%nat ->
  bodies !! i = Some bi -> bodies !! j = Some bj ->
  model_validate lax bi = inr ei -> model_validate lax bj = inr ej ->
  timestamp ei = None -> timestamp ej = None ->
  exists di dj ti tj,
    last_record (state_after env lax bodies s (S i)) = Some di
    /\ last_record (state_after env lax bodies s (S j)) = Some dj
    /\ di !! "id" = Some (PyStr (issued_id env (state_after env lax bodies s i)))
    /\ dj !! "id" = Some (PyStr (issued_id env (state_after env lax bodies s j)))
    /\ (draws (state_after env lax bodies s i) <= draws (state_after env lax bodies s j))%nat
    /\ di !! "timestamp" = Some (PyDatetime ti)
    /\ dj !! "timestamp" = Some (PyDatetime tj)
    /\ dt_le ti tj.
Proof.
  intros Hclock Hij Hbi Hbj Hei Hej Hti Htj.
  pose proof (lookup_lt_Some _ _ _ Hbj) as Lj.
  destruct (state_after_mono env lax bodies s i j Hij ltac:(lia)) as [Hd Hc].
  exists (telemetry_record (issued_id env (state_after env lax bodies s i)) ei
            (event_time env ei (state_after env lax bodies s i))),
         (telemetry_record (issued_id env (state_after env lax bodies s j)) ej
            (event_time env ej (state_after env lax bodies s j))),
         (utcnow env (clock_reads (state_after env lax bodies s i))),
         (utcnow env (clock_reads (state_after env lax bodies s j))).
  split.
  { rewrite (state_after_step env lax bodies s i bi Hbi),
      (post_log_accepted env lax bi ei _ Hei). apply last_record_log_telemetry. }
  split.
  { rewrite (state_after_step env lax bodies s j bj Hbj),
      (post_log_accepted env lax bj ej _ Hej). apply last_record_log_telemetry. }
  split; [reflexivity|]. split; [reflexivity|]. split; [exact Hd|].
  split; [rewrite telemetry_record_timestamp; unfold event_time; now rewrite Hti|].
  split; [rewrite telemetry_record_timestamp; unfold event_time; now rewrite Htj|].
  apply Hclock. exact Hc.
Qed.

Lemma created_at_monotone_sequential_witness :
  exists di dj ti tj,
    last_record (state_after env0 lax0 [body0; body_negative; body_tokens] s0 1) = Some di
    /\ last_record (state_after env0 lax0 [body0; body_negative; body_tokens] s0 3) = Some dj
    /\ di !! "timestamp" = Some (PyDatetime ti)
    /\ dj !! "timestamp" = Some (PyDatetime tj)
    /\ dt_le ti tj.
Proof.
  destruct (created_at_monotone_sequential env0 lax0 [body0; body_negative; body_tokens] s0
              0 2 body0 body_tokens
              (mkTelemetryEvent "chatbot-v1" "gpt-4o-mini" "hi" "hello" 120 None None)
              (mkTelemetryEvent "chatbot-v1" "gpt-4o-mini" "hi" "hello" 120 (Some 42) None)
              env0_clock_monotone ltac:(lia) eq_refl eq_refl eq_refl eq_refl eq_refl eq_refl)
    as (di & dj & ti & tj & H1 & H2 & _ & _ & _ & H3 & H4 & H5).
  exists di, dj, ti, tj. repeat split; assumption.
Defined.

(* ===================================================================== *)
(** ** The storage contract *)
(* ===================================================================== *)

Section StorageFacts.
Import Storage.

Lemma lex_leb_total (a b : list Z) : lex_leb a b = false -> lex_leb b a = true.
Proof.
  revert b. induction a as [|x a IH]; intros [|y b]; cbn; try discriminate; try reflexivity.
  intros H. apply orb_false_iff in H. destruct H as [Hlt H].
  apply Z.ltb_ge in Hlt.
  destruct (Z.ltb_spec y x); [reflexivity|]. cbn.
  assert (x = y) as -> by lia.
  rewrite Z.eqb_refl in *. cbn in *. now apply IH.
Qed.

Lemma dt_leb_total (a b : datetime) : dt_leb a b = false -> dt_le b a.
Proof. apply lex_leb_total. Qed.

Lemma lex_leb_trans (a b c : list Z) :
  lex_leb a b = true -> lex_leb b c = true -> lex_leb a c = true.
Proof.
  revert b c. induction a as [|x a IH]; intros [|y b] [|z c]; cbn;
    try discriminate; try reflexivity.
  intros Hab Hbc.
  apply orb_true_iff in Hab. apply orb_true_iff in Hbc. apply orb_true_iff.
  destruct Hab as [Hab|Hab], Hbc as [Hbc|Hbc];
    rewrite ?andb_true_iff, ?Z.ltb_lt, ?Z.eqb_eq in *.
  - left. lia.
  - left. lia.
  - left. lia.
  - right. destruct Hab as [-> Hab], Hbc as [-> Hbc]. split; [reflexivity|].
    now apply (IH b c).
Qed.

Lemma created_le_trans : Transitive created_le.
Proof. intros x y z. unfold created_le, dt_le, dt_leb. apply lex_leb_trans. Qed.

(** In an ascending list every record is not later than every record after it. *)
Lemma ascending_pairwise (l : list TelemetryRecord) :
  ascending l -> StronglySorted created_le l.
Proof. apply Sorted_StronglySorted. exact created_le_trans. Qed.

Lemma insert_by_created_perm (r : TelemetryRecord) (l : list TelemetryRecord) :
  Permutation (insert_by_created r l) (r :: l).
Proof.
  induction l as [|x l IH]; cbn [insert_by_created]; [reflexivity|].
  destruct (dt_leb (created_at x) (created_at r)); [|reflexivity].
  rewrite IH. apply perm_swap.
Qed.

Lemma insert_by_created_hd (x r : TelemetryRecord) (l : list TelemetryRecord) :
  created_le x r -> HdRel created_le x l -> HdRel created_le x (insert_by_created r l).
Proof.
  intros Hxr Hl. destruct l as [|y l]; cbn [insert_by_created]; [now constructor|].
  destruct (dt_leb (created_at y) (created_at r)); constructor;
    [now inversion Hl | exact Hxr].
Qed.

Lemma insert_by_created_ascending (r : TelemetryRecord) (l : list TelemetryRecord) :
  ascending l -> ascending (insert_by_created r l).
Proof.
  unfold ascending. induction l as [|x l IH]; intros Hl; cbn [insert_by_created].
  - repeat constructor.
  - inversion Hl as [|? ? Hs Hh]; subst.
    destruct (dt_leb (created_at x) (created_at r)) eqn:E.
    + constructor; [now apply IH|]. now apply insert_by_created_hd.
    + constructor; [exact Hl|]. constructor. now apply dt_leb_total.
Qed.

Lemma index_ok_empty (key : TelemetryRecord -> string) : index_ok key ∅ [].
Proof. intros k. rewrite lookup_empty. cbn. split; constructor. Qed.

Lemma index_ok_add (key : TelemetryRecord -> string) (r : TelemetryRecord)
    (idx : gmap string (list TelemetryRecord)) (tbl : list TelemetryRecord) :
  index_ok key idx tbl -> index_ok key (index_add (key r) r idx) (tbl ++ [r]).
Proof.
  intros Hok k. destruct (Hok k) as [Hs Hp]. unfold index_add.
  rewrite List.filter_app. cbn [List.filter].
  destruct (String.eqb_spec (key r) k) as [<-|Hne].
  - rewrite lookup_insert_eq. cbn [default]. destruct (Hok (key r)) as [Hs' Hp'].
    split; [now apply insert_by_created_ascending|].
    rewrite insert_by_created_perm, Hp'. apply Permutation_cons_append.
  - rewrite lookup_insert_ne by exact Hne. rewrite app_nil_r. split; assumption.
Qed.

Lemma store_ok_empty : store_ok empty.
Proof. split; apply index_ok_empty. Qed.

Lemma store_ok_append (r : TelemetryRecord) (st : Store) :
  store_ok st -> store_ok (snd (append r st)).
Proof. intros [Ha Hm]. split; cbn; now apply index_ok_add. Qed.

Lemma append_all_ok (rs : list TelemetryRecord) (st : Store) :
  store_ok st ->
  store_ok (append_all rs st) /\ table (append_all rs st) = (table st ++ rs)%list.
Proof.
  revert st. induction rs as [|r rs IH]; intros st Hok.
  - change (append_all [] st) with st. rewrite app_nil_r. split; [exact Hok | reflexivity].
  - destruct (IH (snd (append r st)) (store_ok_append r st Hok)) as [H1 H2].
    change (append_all (r :: rs) st) with (append_all rs (snd (append r st))).
    split; [exact H1|]. rewrite H2. cbn [append snd table].
    now rewrite <- app_assoc.
Qed.

Lemma filter_None_id (l : list TelemetryRecord) : List.filter (in_range None) l = l.
Proof. induction l as [|x l IH]; cbn; [reflexivity | now rewrite IH]. Qed.

End StorageFacts.

(** C5: in the store reached by appending any records, [queryByApp]
    (respectively [queryByModel]) without a time range returns the stored
    records whose [app_id] (respectively [model_name]) equals the key, each
    as often as it was stored and no other, in non-decreasing [created_at]
    order; when no stored record has the key the answer is the empty list
    (the queries have no error result). *)
Theorem query_by_key (rs : list Storage.TelemetryRecord) (key : string) :
  let st := Storage.append_all rs Storage.empty in
  Storage.table st = rs
  /\ StronglySorted Storage.created_le (Storage.queryByApp st key None)
  /\ Permutation (Storage.queryByApp st key None) (List.filter (Storage.app_is key) rs)
  /\ match List.filter (Storage.app_is key) rs with
     | [] => Storage.queryByApp st key None = []
     | _ :: _ => True
     end
  /\ StronglySorted Storage.created_le (Storage.queryByModel st key None)
  /\ Permutation (Storage.queryByModel st key None) (List.filter (Storage.model_is key) rs)
  /\ match List.filter (Storage.model_is key) rs with
     | [] => Storage.queryByModel st key None = []
     | _ :: _ => True
     end.
Proof.
  intros st.
  destruct (append_all_ok rs Storage.empty store_ok_empty) as [[Ha Hm] Ht].
  fold st in Ha, Hm, Ht. cbn in Ht.
  destruct (Ha key) as [Hsa Hpa]. destruct (Hm key) as [Hsm Hpm].
  rewrite Ht in Hpa, Hpm.
  unfold Storage.queryByApp, Storage.queryByModel. rewrite !filter_None_id.
  split; [exact Ht|]. split; [now apply ascending_pairwise|]. split; [exact Hpa|]. split.
  { change (fun r => (Storage.app_id r =? key)%string) with (Storage.app_is key) in Hpa.
    destruct (List.filter (Storage.app_is key) rs); [|exact I].
    apply Permutation_sym in Hpa. now apply Permutation_nil in Hpa. }
  split; [now apply ascending_pairwise|]. split; [exact Hpm|].
  change (fun r => (Storage.model_name r =? key)%string) with (Storage.model_is key) in Hpm.
  destruct (List.filter (Storage.model_is key) rs); [|exact I].
  apply Permutation_sym in Hpm. now apply Permutation_nil in Hpm.
Qed.

(** The scenario of section 8 on this store: one record for ["chatbot-v1"],
    found by its application and by its model, and nothing under another key. *)
Example query_scenario :
  let r := Storage.mkRecord "00000000-0000-4000-8000-000000000000" "chatbot-v1"
             "gpt-4o-mini" "hi" "hello" (inject_Z 120) None
             (mkDatetime 2024 1 1 0 0 0 0 None) None in
  let st := snd (Storage.append r Storage.empty) in
  Storage.queryByApp st "chatbot-v1" None = [r]
  /\ Storage.queryByModel st "gpt-4o-mini" None = [r]
  /\ Storage.queryByApp st "chatbot-v2" None = [].
Proof. repeat split; reflexivity. Qed.

(* ===================================================================== *)
(** ** More about validation *)
(* ===================================================================== *)

Section ValidationMore.
Context (env : Env) (lax : Lax).

Lemma dict_get_app_last (k k' : string) (v : json) (d : list (string * json)) :
  dict_get k (d ++ [(k', v)]) = if String.eqb k k' then Some v else dict_get k d.
Proof.
  induction d as [|[k0 v0] d IH]; cbn [dict_get app].
  - destruct (String.eqb k k'); reflexivity.
  - rewrite IH. destruct (String.eqb k k'); reflexivity.
Qed.

Lemma errors_required {A} (name : string) (val : json -> error_type + A) d :
  errors (required name val d) = []
  \/ exists e, errors (required name val d) = [mkError name e].
Proof.
  unfold required. destruct (dict_get name d) as [v|]; [|right; eauto].
  destruct (val v); [right; eexists; reflexivity | left; reflexivity].
Qed.

Lemma errors_optional {A} (name : string) (val : json -> error_type + A) d :
  errors (optional name val d) = []
  \/ exists e, errors (optional name val d) = [mkError name e].
Proof.
  unfold optional. destruct (dict_get name d) as [v|]; [|left; reflexivity].
  destruct v; try (left; reflexivity);
    match goal with |- context [val ?x] => destruct (val x) end;
    first [left; reflexivity | right; eexists; reflexivity].
Qed.


End ValidationMore.



(** X2: the identifier owes nothing to the submission: two bodies accepted
    in the same state are given the same identifier, the one made from the
    next draw of entropy. *)
Theorem identifier_ignores_submission (env : Env) (lax : Lax) (b1 b2 : json)
    (s s1 s2 : State) (r1 r2 : TelemetryResponse) :
  post_log env lax b1 s = (Http200 r1, s1) ->
  post_log env lax b2 s = (Http200 r2, s2) ->
  request_id r1 = request_id r2
  /\ request_id r1 = uuid_str (uuid4_int (os_urandom env (draws s))).
Proof.
  intros H1 H2.
  apply post_log_200_inv in H1. destruct H1 as (e1 & _ & H1).
  apply post_log_200_inv in H2. destruct H2 as (e2 & _ & H2).
  rewrite log_telemetry_eq in H1, H2.
  injection H1 as <- _. injection H2 as <- _. split; reflexivity.
Qed.

Lemma identifier_ignores_submission_witness :
  exists r1 r2 s1 s2,
    post_log env0 lax0 body0 s0 = (Http200 r1, s1)
    /\ post_log env0 lax0 body_tokens s0 = (Http200 r2, s2)
    /\ request_id r1 = request_id r2.
Proof.
  eexists _, _, _, _. split; [reflexivity|]. split; [reflexivity|].
  exact (proj1 (identifier_ignores_submission env0 lax0 body0 body_tokens s0 _ _ _ _
                  eq_refl eq_refl)).
Defined.



Lemma one_error_ok (name : string) (l : list ErrorDetails) :
  In name ("body" :: field_names) ->
  l = [] \/ (exists e, l = [mkError name e]) ->
  Forall (fun e => In (loc e) ("body" :: field_names)) l /\ (length l <= 1)%nat.
Proof.
  intros Hn [->|[e ->]]; split; cbn [length]; try lia.
  - constructor.
  - constructor; [exact Hn | constructor].
Qed.

(** X4: a 422 changes nothing, for whatever reason the body was refused, and
    its error list names declared fields only (or the body itself when it is
    not an object), at most one error for each of the seven. *)
Theorem rejection_leaves_no_trace (env : Env) (lax : Lax) (body : json)
    (s s' : State) (detail : list ErrorDetails) :
  post_log env lax body s = (Http422 detail, s') ->
  s' = s
  /\ Forall (fun e => In (loc e) ("body" :: field_names)) detail
  /\ (length detail <= 7)%nat.
Proof.
  unfold post_log. destruct (model_validate lax body) as [dt|ev] eqn:E.
  - intros H. injection H as <- <-. split; [reflexivity|].
    destruct body as [| | | | | |d];
      try (cbn in E; injection E as <-; split;
           [repeat constructor; cbn; tauto | cbn; lia]).
    destruct (model_validate_obj_cases lax d) as [[ev Hev]|Hd]; [congruence|].
    rewrite Hd in E. injection E as <-.
    pose proof (one_error_ok "app_id" _ ltac:(cbn; tauto)
                  (errors_required "app_id" validate_str d)) as [Fa La].
    pose proof (one_error_ok "model_name" _ ltac:(cbn; tauto)
                  (errors_required "model_name" validate_str d)) as [Fm Lm].
    pose proof (one_error_ok "prompt" _ ltac:(cbn; tauto)
                  (errors_required "prompt" validate_str d)) as [Fp Lp].
    pose proof (one_error_ok "response" _ ltac:(cbn; tauto)
                  (errors_required "response" validate_str d)) as [Fr Lr].
    pose proof (one_error_ok "latency_ms" _ ltac:(cbn; tauto)
                  (errors_required "latency_ms" (fun v => ge 0 (validate_int lax v)) d))
      as [Fl Ll].
    pose proof (one_error_ok "token_count" _ ltac:(cbn; tauto)
                  (errors_optional "token_count" (validate_int lax) d)) as [Fc Lc].
    pose proof (one_error_ok "timestamp" _ ltac:(cbn; tauto)
                  (errors_optional "timestamp" (validate_datetime lax) d)) as [Ft Lt].
    split.
    + repeat (apply Forall_app; split); assumption.
    + rewrite !length_app. lia.
  - unfold bind, ret. destruct (log_telemetry env ev s). discriminate.
Qed.

Lemma rejection_leaves_no_trace_witness :
  snd (post_log env0 lax0 body_fractional s0) = s0.
Proof.
  exact (proj1 (rejection_leaves_no_trace env0 lax0 body_fractional s0 _ _ eq_refl)).
Defined.



(** X6: [token_count] has no bound: setting it to any integer, negative ones
    included, in a body that is accepted leaves the body accepted and puts
    that integer in the event; setting it to [null] is the same as leaving it
    out. *)
Theorem token_count_is_unchecked (lax : Lax) (d : list (string * json))
    (ev : TelemetryEvent) (z : Z) :
  model_validate lax (JObj d) = inr ev ->
  model_validate lax (JObj (d ++ [("token_count", JInt z)]))
    = inr (with_token_count ev (Some z))
  /\ model_validate lax (JObj (d ++ [("token_count", JNull)]))
    = inr (with_token_count ev None).
Proof.
  intros H. apply model_validate_inr_inv in H.
  destruct H as (d' & Hd' & Ha & Hm & Hp & Hr & Hl & Hc & Ht). injection Hd' as <-.
  unfold required, optional in *.
  split; apply model_validate_inr_intro; unfold required, optional;
    rewrite dict_get_app_last; cbn [String.eqb Ascii.eqb Bool.eqb]; cbn;
    assumption || reflexivity.
Qed.

Lemma token_count_is_unchecked_witness :
  model_validate lax0
    (JObj [("app_id", JStr "chatbot-v1"); ("model_name", JStr "gpt-4o-mini");
           ("prompt", JStr "hi"); ("response", JStr "hello"); ("latency_ms", JInt 120);
           ("token_count", JInt (-7))])
  = inr (mkTelemetryEvent "chatbot-v1" "gpt-4o-mini" "hi" "hello" 120 (Some (-7)) None).
Proof.
  exact (proj1 (token_count_is_unchecked lax0
                  [("app_id", JStr "chatbot-v1"); ("model_name", JStr "gpt-4o-mini");
                   ("prompt", JStr "hi"); ("response", JStr "hello");
                   ("latency_ms", JInt 120)]
                  event0 (-7) eq_refl)).
Defined.

(** X7: the record written for an accepted submission always has the same
    eight keys ([token_count] among them, holding [None] when the client gave
    none), and its ["id"] is the identifier returned to the caller. *)
Theorem record_shape (env : Env) (lax : Lax) (body : json) (s s' : State)
    (resp : TelemetryResponse) :
  post_log env lax body s = (Http200 resp, s') ->
  exists record,
    last_record s' = Some record
    /\ dom record = record_keys
    /\ record !! "id" = Some (PyStr (request_id resp)).
Proof.
  intros H. apply post_log_200_inv in H. destruct H as (ev & _ & H).
  pose proof (last_record_log_telemetry env ev s) as Hl.
  rewrite H in Hl. cbn [snd] in Hl.
  rewrite log_telemetry_eq in H. injection H as <- _.
  eexists. split; [exact Hl|]. split.
  - unfold telemetry_record, record_keys. rewrite !dom_insert_L, dom_empty_L. set_solver.
  - reflexivity.
Qed.

Lemma record_shape_witness :
  exists record,
    last_record (snd (post_log env0 lax0 body0 s0)) = Some record
    /\ dom record = record_keys
    /\ record !! "token_count" = Some PyNone.
Proof.
  destruct (record_shape env0 lax0 body0 s0 _ _ eq_refl) as (record & Hl & Hd & _).
  exists record. split; [exact Hl|]. split; [exact Hd|].
  cbn in Hl. injection Hl as <-. reflexivity.
Defined.

(* ===================================================================== *)
(** ** More about the service over time *)
(* ===================================================================== *)

Section ServeMore.
Context (env : Env) (lax : Lax).

Lemma serve_cons_snd (b : json) (bs : list json) (s : State) :
  snd (serve env lax (b :: bs) s) = snd (serve env lax bs (snd (post_log env lax b s))).
Proof.
  cbn [serve]. unfold bind, ret.
  destruct (post_log env lax b s) as [r s1]. cbn [snd].
  destruct (serve env lax bs s1). reflexivity.
Qed.


(** What one request adds to the counters and to the console. *)
Lemma post_log_adds (b : json) (s : State) :
  let s' := snd (post_log env lax b s) in
  draws s' = (draws s + (if accepted lax b then 1 else 0))%nat
  /\ length (stdout s') = (length (stdout s) + (if accepted lax b then 2 else 0))%nat
  /\ clock_reads s' = (clock_reads s + (if reads_clock lax b then 1 else 0))%nat
  /\ is_200 (fst (post_log env lax b s)) = accepted lax b.
Proof.
  unfold post_log, accepted, reads_clock.
  destruct (model_validate lax b) as [detail|ev].
  - cbn. repeat split; lia.
  - unfold bind, ret. rewrite log_telemetry_eq. cbn [fst snd draws stdout clock_reads is_200].
    rewrite length_app. cbn [length].
    destruct (timestamp ev); repeat split; lia.
Qed.

End ServeMore.

(** X8: over any sequence of requests, each accepted one draws entropy once
    and writes two lines to the console, the clock is read once for each
    accepted one that has no timestamp, and the refused ones add nothing. *)
Theorem serve_bookkeeping (env : Env) (lax : Lax) (bodies : list json) (s : State) :
  draws (snd (serve env lax bodies s))
    = (draws s + length (List.filter (accepted lax) bodies))%nat
  /\ length (stdout (snd (serve env lax bodies s)))
    = (length (stdout s) + 2 * length (List.filter (accepted lax) bodies))%nat
  /\ clock_reads (snd (serve env lax bodies s))
    = (clock_reads s + length (List.filter (reads_clock lax) bodies))%nat.
Proof.
  revert s. induction bodies as [|b bs IH]; intros s.
  - cbn. repeat split; lia.
  - rewrite serve_cons_snd.
    destruct (IH (snd (post_log env lax b s))) as (Hd & Ho & Hc).
    destruct (post_log_adds env lax b s) as (Hd1 & Ho1 & Hc1 & _).
    rewrite Hd, Ho, Hc, Hd1, Ho1, Hc1. cbn [List.filter].
    destruct (accepted lax b), (reads_clock lax b); cbn [length]; repeat split; lia.
Qed.


(* ===================================================================== *)
(** ** The shape of an identifier *)
(* ===================================================================== *)

Section IdentifierShape.

Lemma digits_lookup (base : Z) (w : nat) (n : Z) (i : nat) :
  0 < base -> (i < w)%nat ->
  digits base w n !! i
  = Some (digit_char ((n / base ^ Z.of_nat (w - 1 - i)) mod base)).
Proof.
  intros Hb. revert n i. induction w as [|w IH]; intros n i Hi; [lia|].
  cbn [digits]. destruct (Nat.eq_dec i w) as [->|Hne].
  - rewrite lookup_app_r by (rewrite digits_length; lia).
    rewrite digits_length. replace (w - w)%nat with 0%nat by lia.
    replace (S w - 1 - w)%nat with 0%nat by lia. cbn [lookup list_lookup].
    now rewrite Z.pow_0_r, Z.div_1_r.
  - rewrite lookup_app_l by (rewrite digits_length; lia).
    rewrite IH by lia.
    replace (S w - 1 - i)%nat with (S (w - 1 - i)) by lia.
    rewrite Nat2Z.inj_succ, Z.pow_succ_r by lia.
    rewrite Z.div_div by (try apply Z.pow_pos_nonneg; lia). reflexivity.
Qed.

(** The version field of a [uuid4] is 4. *)
Lemma uuid4_version (r : Z) : (uuid4_int r / 16 ^ 19) mod 16 = 4.
Proof.
  change (16 ^ 19) with (2 ^ 76). change 16 with (2 ^ 4).
  rewrite <- Z.shiftr_div_pow2, <- Z.land_ones by lia.
  unfold uuid4_int. rewrite Z.shiftr_lor, Z.shiftr_land.
  change (Z.shiftr (Z.lnot version_field) 76) with (-16).
  change (Z.shiftr version_4 76) with 4.
  rewrite Z.land_lor_distr_l, <- Z.land_assoc.
  change (Z.land (-16) (Z.ones 4)) with 0. change (Z.land 4 (Z.ones 4)) with 4.
  now rewrite Z.land_0_r.
Qed.

Lemma uuid_str_shape (n : Z) :
  String.length (uuid_str n) = 36%nat
  /\ String.get 8 (uuid_str n) = Some dash
  /\ String.get 13 (uuid_str n) = Some dash
  /\ String.get 18 (uuid_str n) = Some dash
  /\ String.get 23 (uuid_str n) = Some dash
  /\ String.get 14 (uuid_str n) = hex32 n !! 12%nat.
Proof.
  unfold uuid_str. pose proof (digits_length 16 32 n) as Hlen. fold (hex32 n) in Hlen.
  destruct (hex32 n) as [|? h]; [discriminate Hlen|].
  do 31 (destruct h as [|? h]; [discriminate Hlen|]).
  destruct h; [|discriminate Hlen].
  repeat split; reflexivity.
Qed.

End IdentifierShape.

(** X10: every identifier the endpoint returns is 36 characters long, with
    dashes after the 8th, 12th, 16th and 20th digit, and its 13th digit (the
    UUID version) is [4]. *)
Theorem request_id_format (env : Env) (lax : Lax) (body : json) (s s' : State)
    (resp : TelemetryResponse) :
  post_log env lax body s = (Http200 resp, s') ->
  String.length (request_id resp) = 36%nat
  /\ String.get 8 (request_id resp) = Some "-"%char
  /\ String.get 13 (request_id resp) = Some "-"%char
  /\ String.get 18 (request_id resp) = Some "-"%char
  /\ String.get 23 (request_id resp) = Some "-"%char
  /\ String.get 14 (request_id resp) = Some "4"%char.
Proof.
  intros H. apply post_log_200_inv in H. destruct H as (ev & _ & H).
  rewrite log_telemetry_eq in H. injection H as <- _.
  cbn [request_id]. unfold issued_id.
  destruct (uuid_str_shape (uuid4_int (os_urandom env (draws s))))
    as (Hl & H8 & H13 & H18 & H23 & H14).
  repeat split; try assumption.
  rewrite H14. unfold hex32. rewrite digits_lookup by lia.
  change (Z.of_nat (32 - 1 - 12)) with 19. rewrite uuid4_version. reflexivity.
Qed.

Lemma request_id_format_witness :
  String.get 14 (request_id {| request_id := issued_id env0 s0; status := "logged" |})
  = Some "4"%char.
Proof.
  exact (proj2 (proj2 (proj2 (proj2 (proj2
           (request_id_format env0 lax0 body0 s0 _ _ eq_refl)))))).
Defined.

(* ===================================================================== *)
(** ** Requests in flight together *)
(* ===================================================================== *)

Section InterleavingFacts.
Context (env : Env).


End InterleavingFacts.



(* ===================================================================== *)
(** ** More about the schema *)
(* ===================================================================== *)



(* ===================================================================== *)
(** ** [isoformat] loses nothing *)
(* ===================================================================== *)

Section IsoformatFacts.

Lemma string_app_inj_len (a a' b b' : string) :
  String.length a = String.length a' -> a ++ b = a' ++ b' -> a = a' /\ b = b'.
Proof.
  revert a'. induction a as [|c a IH]; intros [|c' a'] Hlen E; try discriminate.
  - cbn in E. auto.
  - cbn in E, Hlen. injection E as -> E. injection Hlen as Hlen.
    destruct (IH a' Hlen E) as [-> ->]. auto.
Qed.

Lemma string_of_list_ascii_length (l : list ascii) :
  String.length (string_of_list_ascii l) = length l.
Proof. induction l as [|c l IH]; cbn; [reflexivity | now rewrite IH]. Qed.

Lemma zpad_dec_length (w : nat) (n : Z) : String.length (zpad_dec w n) = w.
Proof. unfold zpad_dec. now rewrite string_of_list_ascii_length, digits_length. Qed.

Lemma zpad_dec_inj (w : nat) (n m : Z) :
  0 <= n < 10 ^ Z.of_nat w -> 0 <= m < 10 ^ Z.of_nat w ->
  zpad_dec w n = zpad_dec w m -> n = m.
Proof.
  intros Hn Hm E. apply string_of_list_ascii_inj in E.
  apply (digits_inj 10 w); [lia | exact Hn | exact Hm | exact E].
Qed.

Lemma sep_inj (c : ascii) (a b : string) :
  String c EmptyString ++ a = String c EmptyString ++ b -> a = b.
Proof.
  intros E.
  apply (string_app_inj_len (String c EmptyString) (String c EmptyString) a b) in E;
    [tauto | reflexivity].
Qed.

Lemma isoformat_inj (d1 d2 : datetime) :
  valid_naive d1 -> valid_naive d2 -> isoformat d1 = isoformat d2 -> d1 = d2.
Proof.
  intros (Hy1 & Hmo1 & Hd1 & Hh1 & Hmi1 & Hs1 & Hu1 & Ho1)
         (Hy2 & Hmo2 & Hd2 & Hh2 & Hmi2 & Hs2 & Hu2 & Ho2) E.
  unfold isoformat in E. rewrite Ho1, Ho2 in E.
  apply string_app_inj_len in E; [|now rewrite !zpad_dec_length].
  destruct E as [Ey E]. apply sep_inj in E.
  apply string_app_inj_len in E; [|now rewrite !zpad_dec_length].
  destruct E as [Emo E]. apply sep_inj in E.
  apply string_app_inj_len in E; [|now rewrite !zpad_dec_length].
  destruct E as [Ed E]. apply sep_inj in E.
  apply string_app_inj_len in E; [|now rewrite !zpad_dec_length].
  destruct E as [Eh E]. apply sep_inj in E.
  apply string_app_inj_len in E; [|now rewrite !zpad_dec_length].
  destruct E as [Emi E]. apply sep_inj in E.
  apply string_app_inj_len in E; [|now rewrite !zpad_dec_length].
  destruct E as [Es E].
  apply zpad_dec_inj in Ey; [|cbn; lia..].
  apply zpad_dec_inj in Emo; [|cbn; lia..].
  apply zpad_dec_inj in Ed; [|cbn; lia..].
  apply zpad_dec_inj in Eh; [|cbn; lia..].
  apply zpad_dec_inj in Emi; [|cbn; lia..].
  apply zpad_dec_inj in Es; [|cbn; lia..].
  assert (Eu : microsecond d1 = microsecond d2).
  { destruct (Z.eqb_spec (microsecond d1) 0) as [Z1|N1],
      (Z.eqb_spec (microsecond d2) 0) as [Z2|N2].
    - congruence.
    - apply (f_equal String.length) in E. cbn in E. discriminate E.
    - apply (f_equal String.length) in E. cbn in E. discriminate E.
    - assert (E' : String "."%char EmptyString ++ zpad_dec 6 (microsecond d1)
                   = String "."%char EmptyString ++ zpad_dec 6 (microsecond d2)).
      { apply (string_app_inj_len _ _ EmptyString EmptyString); [|exact E].
        change (S (String.length (zpad_dec 6 (microsecond d1)))
                = S (String.length (zpad_dec 6 (microsecond d2)))).
        now rewrite !zpad_dec_length. }
      clear E. rename E' into E. apply sep_inj in E.
      apply zpad_dec_inj in E; [exact E|cbn; lia..]. }
  destruct d1, d2. cbn in *. congruence.
Qed.

Lemma to_dict_created_at (r : LLMRequest) :
  to_dict r !! "created_at"
  = Some match created_at r with
         | Some d => PyStr (isoformat d)
         | None => PyNone
         end.
Proof. reflexivity. Qed.

End IsoformatFacts.

(** X13: what [to_dict] puts under [created_at] determines the timestamp of
    the row: two rows whose timestamps are valid naive datetimes (or absent)
    serialise to the same value only when their timestamps are the same, to
    the microsecond. *)
Theorem created_at_survives_to_dict (r1 r2 : LLMRequest) :
  valid_created_at r1 -> valid_created_at r2 ->
  to_dict r1 !! "created_at" = to_dict r2 !! "created_at" ->
  created_at r1 = created_at r2.
Proof.
  unfold valid_created_at. rewrite !to_dict_created_at.
  destruct (created_at r1) as [d1|], (created_at r2) as [d2|];
    intros H1 H2 E; try discriminate E; [|reflexivity].
  f_equal. apply isoformat_inj; [exact H1 | exact H2 | congruence].
Qed.

Lemma created_at_survives_to_dict_witness :
  created_at (mkLLMRequest 1 "a" "m" "p" "r" (inject_Z 1)
                (Some (mkDatetime 2024 5 17 9 30 7 4100 None)) None)
  = created_at (mkLLMRequest 2 "b" "n" "q" "s" (inject_Z 2)
                  (Some (mkDatetime 2024 5 17 9 30 7 4100 None)) (Some JNull)).
Proof.
  apply created_at_survives_to_dict.
  - unfold valid_created_at, valid_naive. cbn [created_at year month day hour minute
      second microsecond utcoffset]. repeat split; first [lia | reflexivity].
  - unfold valid_created_at, valid_naive. cbn [created_at year month day hour minute
      second microsecond utcoffset]. repeat split; first [lia | reflexivity].
  - reflexivity.
Defined.

(* ===================================================================== *)
(** ** [get_database_path] *)
(* ===================================================================== *)

Section SettingsFacts.

Lemma append_cons (x : ascii) (a b : string) : String x a ++ b = String x (a ++ b).
Proof. reflexivity. Qed.

Lemma append_nil_l (b : string) : EmptyString ++ b = b.
Proof. reflexivity. Qed.

Lemma lacks_app (c : ascii) (a b : string) :
  lacks c (a ++ b) = lacks c a && lacks c b.
Proof.
  induction a as [|x a IH]; [reflexivity|].
  rewrite append_cons. cbn [lacks]. rewrite IH. now rewrite andb_assoc.
Qed.

Ltac decide_chars :=
  repeat match goal with
         | |- context [ascii_dec ?a ?b] =>
             destruct (ascii_dec a b); [try congruence; subst | reflexivity]
         end.

(** The scheme does not start inside a text without a colon, even when the
    scheme itself follows that text. *)
Lemma no_prefix_before (a rest : string) :
  lacks ":" a = true -> a <> EmptyString ->
  String.prefix "sqlite:///" (a ++ "sqlite:///" ++ rest) = false.
Proof.
  intros H Hne.
  destruct a as [|c0 [|c1 [|c2 [|c3 [|c4 [|c5 [|c6 a]]]]]]];
    [congruence|..]; repeat (rewrite append_cons || rewrite append_nil_l);
    cbn [String.prefix];
    decide_chars; cbn in H; discriminate H.
Qed.

Lemma no_prefix_without_colon (s : string) :
  lacks ":" s = true -> String.prefix "sqlite:///" s = false.
Proof.
  intros H.
  destruct s as [|c0 [|c1 [|c2 [|c3 [|c4 [|c5 [|c6 s]]]]]]];
    cbn [String.prefix]; try reflexivity;
    decide_chars; try reflexivity; cbn in H; discriminate H.
Qed.

Lemma replace_without_colon (s : string) :
  lacks ":" s = true -> replace "sqlite:///" "" s = s.
Proof.
  unfold replace. induction s as [|c s IH]; intros H; [reflexivity|].
  cbn [replace_from]. rewrite (no_prefix_without_colon _ H).
  cbn in H. apply andb_true_iff in H. destruct H as [_ H].
  now rewrite IH.
Qed.

Lemma prefix_nil (p : string) : String.prefix EmptyString p = true.
Proof. destruct p; reflexivity. Qed.

Lemma prefix_scheme (p : string) : String.prefix "sqlite:///" ("sqlite:///" ++ p) = true.
Proof.
  repeat (rewrite append_cons || rewrite append_nil_l). cbn [String.prefix].
  repeat (destruct (ascii_dec _ _); [|congruence]). apply prefix_nil.
Qed.

Lemma replace_scheme_then (p : string) :
  replace "sqlite:///" "" ("sqlite:///" ++ p) = replace "sqlite:///" "" p.
Proof.
  unfold replace. pose proof (prefix_scheme p) as Hp. revert Hp.
  repeat (rewrite append_cons || rewrite append_nil_l). intros Hp.
  cbn [replace_from]. rewrite Hp.
  cbn [replace_from String.length Nat.sub]. apply append_nil_l.
Qed.

Lemma replace_before_scheme (a rest : string) :
  lacks ":" a = true ->
  replace "sqlite:///" "" (a ++ "sqlite:///" ++ rest)
  = a ++ replace "sqlite:///" "" ("sqlite:///" ++ rest).
Proof.
  unfold replace. induction a as [|c a IH]; intros H; [reflexivity|].
  rewrite !(append_cons c a). cbn [replace_from].
  rewrite <- (append_cons c a ("sqlite:///" ++ rest)).
  rewrite (no_prefix_before (String c a) rest H) by discriminate.
  cbn in H. apply andb_true_iff in H. destruct H as [_ H].
  now rewrite IH.
Qed.

End SettingsFacts.

Lemma replace_scheme_path (p : string) :
  lacks ":" p = true -> replace "sqlite:///" "" ("sqlite:///" ++ p) = p.
Proof. intros H. now rewrite replace_scheme_then, replace_without_colon. Qed.

(** X14: for a URL made of the scheme ["sqlite:///"] and a path that has no
    colon in it, [get_database_path] returns that path, unchanged. *)
Theorem database_path_of_sqlite_url (p : string) :
  lacks ":" p = true ->
  get_database_path ("sqlite:///" ++ p) = inr p.
Proof.
  intros H. unfold get_database_path.
  rewrite prefix_scheme. f_equal. now apply replace_scheme_path.
Qed.

Lemma database_path_of_sqlite_url_witness :
  get_database_path "sqlite:////srv/app/data/observability.db"
  = inr "/srv/app/data/observability.db".
Proof.
  apply (database_path_of_sqlite_url "/srv/app/data/observability.db"). reflexivity.
Defined.

(** X15: when [DATABASE_URL] is not set in the environment and the project
    root has no colon in it, the database path is [data/observability.db]
    under the project root. *)
Theorem default_database_path (root : string) :
  lacks ":" root = true ->
  get_database_path (DATABASE_URL None root) = inr (root ++ "/data/observability.db").
Proof.
  intros H. unfold DATABASE_URL, get_database_path.
  rewrite prefix_scheme. f_equal. apply replace_scheme_path.
  rewrite lacks_app, H. reflexivity.
Qed.

Lemma default_database_path_witness :
  get_database_path (DATABASE_URL None "/srv/app")
  = inr "/srv/app/data/observability.db".
Proof. apply (default_database_path "/srv/app"). reflexivity. Defined.

(** X16: [replace] removes the scheme wherever it stands, not only at the
    front: a second ["sqlite:///"] inside the path is cut out of the result
    as well. *)
Theorem database_path_drops_every_scheme (a b : string) :
  lacks ":" a = true -> lacks ":" b = true ->
  get_database_path ("sqlite:///" ++ a ++ "sqlite:///" ++ b) = inr (a ++ b).
Proof.
  intros Ha Hb. unfold get_database_path. rewrite prefix_scheme.
  rewrite replace_scheme_then, (replace_before_scheme a b Ha).
  now rewrite replace_scheme_then, (replace_without_colon b Hb).
Qed.

Lemma database_path_drops_every_scheme_witness :
  get_database_path "sqlite:///backup/sqlite:///old.db" = inr "backup/old.db".
Proof.
  apply (database_path_drops_every_scheme "backup/" "old.db"); reflexivity.
Defined.

(** A URL of another scheme is refused, with the URL in the message. *)
Example unsupported_database_url :
  get_database_path "postgresql://localhost/observability"
  = inl "Unsupported database URL: postgresql://localhost/observability".
Proof. reflexivity. Qed.

(* ===================================================================== *)
(** ** [validate_schema] *)
(* ===================================================================== *)

Section ReportFacts.

Lemma print_columns_eq (cs : list Column) (s : State) :
  print_columns cs s
  = (tt, {| draws := draws s; clock_reads := clock_reads s;
            stdout := stdout s ++ List.map (fun c => PrintStr (column_line c)) cs;
            llm_requests := llm_requests s |}).
Proof.
  revert s. induction cs as [|c cs IH]; intros s.
  - cbn. rewrite app_nil_r. now destruct s.
  - cbn [print_columns List.map]. unfold bind, print. rewrite IH. cbn.
    now rewrite <- app_assoc.
Qed.

Lemma bind_print {A} (p : printed) (k : unit -> M A) (s : State) :
  bind (print p) k s
  = k tt {| draws := draws s; clock_reads := clock_reads s;
            stdout := stdout s ++ [p]; llm_requests := llm_requests s |}.
Proof. reflexivity. Qed.

Lemma bind_print_columns {A} (cs : list Column) (k : unit -> M A) (s : State) :
  bind (print_columns cs) k s
  = k tt {| draws := draws s; clock_reads := clock_reads s;
            stdout := stdout s ++ List.map (fun c => PrintStr (column_line c)) cs;
            llm_requests := llm_requests s |}.
Proof. unfold bind. now rewrite print_columns_eq. Qed.

Lemma validate_schema_of_eq (name : string) (t : Table) (s : State) :
  validate_schema_of name t s
  = (tt, {| draws := draws s; clock_reads := clock_reads s;
            stdout :=
              stdout s
              ++ [PrintStr (rule 70);
                  PrintStr "DATABASE SCHEMA VALIDATION - Day 2";
                  PrintStr (rule 70);
                  PrintStr ("✅ Model: " ++ name);
                  PrintStr ("   Table name: " ++ tablename t);
                  PrintStr ("   Total columns: " ++ str_nat (length (columns t)));
                  PrintStr "   Indexed columns: app_id, model_name, created_at";
                  PrintStr ("   Composite indexes: " ++ str_nat (length (table_indexes t)));
                  PrintStr (nl ++ "   Columns:")]
              ++ List.map (fun c => PrintStr (column_line c)) (columns t)
              ++ [PrintStr (nl ++ rule 70);
                  PrintStr "✅ Schema validation passed!";
                  PrintStr (rule 70)];
            llm_requests := llm_requests s |}).
Proof.
  unfold validate_schema_of.
  do 9 (rewrite bind_print; cbv beta; cbn [draws clock_reads stdout llm_requests]).
  rewrite bind_print_columns; cbv beta; cbn [draws clock_reads stdout llm_requests].
  do 2 (rewrite bind_print; cbv beta; cbn [draws clock_reads stdout llm_requests]).
  unfold print. cbn [draws clock_reads stdout llm_requests]. f_equal. f_equal.
  rewrite <- !app_assoc. reflexivity.
Qed.

End ReportFacts.


(** X18: the number that [validate_schema] prints as "Composite indexes" and
    that [get_model_info] returns as ["indexes"] counts every index of the
    table. For [LLMRequest] it is 5, of which 2 are composite; the columns
    with [index=True] are the three named on the "Indexed columns" line. *)
Theorem reported_index_count (s : State) :
  get_model_info !! "llm_requests"
    = Some (mkModelInfo "LLMRequest" "llm_requests" 8 5)
  /\ In (PrintStr "   Total columns: 8") (stdout (snd (validate_schema s)))
  /\ In (PrintStr "   Composite indexes: 5") (stdout (snd (validate_schema s)))
  /\ length (List.filter composite (table_indexes LLMRequest_table)) = 2%nat
  /\ List.map col_name (List.filter index (columns LLMRequest_table))
     = ["app_id"; "model_name"; "created_at"].
Proof.
  split; [reflexivity|].
  unfold validate_schema. rewrite validate_schema_of_eq. cbn [snd stdout].
  split; [|split; [|split; reflexivity]].
  - apply in_or_app. right. apply in_or_app. left. cbn. tauto.
  - apply in_or_app. right. apply in_or_app. left. cbn. tauto.
Qed.
